(** * Daily task status report: aggregation, rendering and dispatch

    A shallow embedding of [api_send_email_notification.py].  The script
    reads its configuration from the environment, runs one grouped SQL
    query against the task store, renders the result as an HTML table and
    posts it to the mail API.

    Conventions of the embedding:
    - Python values that travel in row dictionaries are [pyval]s; a row
      dictionary ([dict(row)] of a [RealDictCursor] row) is a
      [gmap string pyval];
    - SQL tables are lists of records (bag semantics), nullable columns are
      [option]s, and the query is written clause by clause (FROM/JOIN,
      WHERE, GROUP BY, the six [COUNT( * ) FILTER] aggregates, ORDER BY);
    - effects (store calls, HTTP calls, prints) are recorded in a trace by a
      small writer/exception monad [Eff]; the answers of the outside world
      are read from a [World] record. *)

From Stdlib Require Import ZArith Ascii String DecimalString.
From stdpp Require Import base decidable option list gmap strings fin_maps sorting.

#[local] Open Scope Z_scope.

(** ** Strings *)

(** The double quote character, for the HTML attributes of the templates. *)
Definition dq : string := String (ascii_of_nat 34) EmptyString.

(** The newline character of the triple-quoted literals. *)
Definition nl : string := String (ascii_of_nat 10) EmptyString.

(** [str(n)] of a Python [int]. *)
Definition str_of_int (n : Z) : string := NilZero.string_of_int (Z.to_int n).

(** SQL [LOWER] on one character: the letters [A]..[Z] are mapped to
    [a]..[z], every other byte is unchanged (the six status literals of the
    query are ASCII). *)
Definition lower_ascii (c : ascii) : ascii :=
  let n := nat_of_ascii c in
  if ((65 <=? n)%nat && (n <=? 90)%nat)%bool then ascii_of_nat (n + 32) else c.

Fixpoint LOWER (s : string) : string :=
  match s with
  | EmptyString => EmptyString
  | String c s' => String (lower_ascii c) (LOWER s')
  end.

(** ** The store *)

(** Timestamps ([timestamptz]) are microseconds since the Unix epoch. *)
Definition timestamptz := Z.

(** [karmafy_task]. *)
Record Task := mkTask {
  t_id : Z;
  t_status : option string;
  t_createdAt : timestamptz;
  t_scored_jobId : Z;
  t_leadId : Z;
  t_ops_personId : option Z
}.

(** [karmafy_scoredjob]; the score is a whole number, or NULL. *)
Record ScoredJob := mkScoredJob {
  sj_id : Z;
  sj_score : option Z
}.

(** [karmafy_lead]. *)
Record Lead := mkLead {
  l_id : Z;
  l_apwId : option string;
  l_email : option string
}.

(** [public."karmafy_opsPerson"]. *)
Record OpsPerson := mkOpsPerson {
  op_user_id : Z;
  op_name : option string;
  op_email : option string
}.

(** The content of the store, with the collation that [ORDER BY] uses for
    text ([collate a b] is [a <= b]). *)
Record Database := mkDatabase {
  karmafy_task : list Task;
  karmafy_scoredjob : list ScoredJob;
  karmafy_lead : list Lead;
  karmafy_opsPerson : list OpsPerson;
  collate : string -> string -> bool
}.

(** One row of the FROM clause: a task with its scored job, its lead and,
    through the LEFT JOIN, its operator if there is one. *)
Record Joined := mkJoined {
  j_t : Task;
  j_sj : ScoredJob;
  j_l : Lead;
  j_op : option OpsPerson
}.

(** [LEFT JOIN]: the matching rows of the right table, or one all-NULL row
    when there is none. *)
Definition left_join {A : Type} (matches : list A) : list (option A) :=
  match matches with
  | [] => [None]
  | _ => Some <$> matches
  end.

(** [FROM karmafy_task t JOIN karmafy_scoredjob sj ON sj.id = t."scored_jobId"
     JOIN karmafy_lead l ON l.id = t."leadId"
     LEFT JOIN public."karmafy_opsPerson" op ON op.user_id = t."ops_personId"] *)
Definition from_clause (db : Database) : list Joined :=
  t0 ← karmafy_task db;
  sj0 ← filter (λ s, sj_id s = t_scored_jobId t0) (karmafy_scoredjob db);
  l0 ← filter (λ x, l_id x = t_leadId t0) (karmafy_lead db);
  op0 ← left_join (filter (λ o, Some (op_user_id o) = t_ops_personId t0)
                          (karmafy_opsPerson db));
  [mkJoined t0 sj0 l0 op0].

(** [TIMESTAMPTZ '2025-12-23 00:00:00+00'] and
    [TIMESTAMPTZ '2025-12-24 00:00:00+00']. *)
Definition window_start : timestamptz := 1766448000 * 1000000.
Definition window_end : timestamptz := 1766534400 * 1000000.

(** [WHERE t."createdAt" >= window_start AND t."createdAt" < window_end] *)
Definition where_clause (j : Joined) : Prop :=
  window_start ≤ t_createdAt (j_t j) ∧ t_createdAt (j_t j) < window_end.

#[global] Instance where_clause_dec j : Decision (where_clause j).
Proof. unfold where_clause. apply _. Defined.

(** [sj.score >= 75]; a NULL score compares to NULL, which a FILTER takes
    as false. *)
Definition score_75_plus (j : Joined) : Prop :=
  ∃ s, sj_score (j_sj j) = Some s ∧ 75 ≤ s.

#[global] Instance score_75_plus_dec j : Decision (score_75_plus j).
Proof.
  unfold score_75_plus. destruct (sj_score (j_sj j)) as [s|].
  - destruct (decide (75 ≤ s)) as [H|H].
    + left. eauto.
    + right. intros (s' & Hs & Hle). simplify_eq. done.
  - right. intros (s' & Hs & _). discriminate.
Defined.

(** [LOWER(t.status) = lit]; a NULL status is equal to nothing. *)
Definition status_is (lit : string) (j : Joined) : Prop :=
  LOWER <$> t_status (j_t j) = Some lit.

#[global] Instance status_is_dec lit j : Decision (status_is lit j).
Proof. unfold status_is. apply _. Defined.

(** The condition of one [FILTER (WHERE sj.score >= 75 AND
    LOWER(t.status) = lit)]. *)
Definition filter_clause (lit : string) (j : Joined) : Prop :=
  score_75_plus j ∧ status_is lit j.

#[global] Instance filter_clause_dec lit j : Decision (filter_clause lit j).
Proof. unfold filter_clause. apply _. Defined.

(** [COUNT( * ) FILTER (WHERE ...)] over the rows of one group. *)
Definition count_filter (lit : string) (group : list Joined) : Z :=
  Z.of_nat (length (filter (filter_clause lit) group)).

(** The columns of [GROUP BY l."apwId", l.email, op.name, op.email]; the
    operator columns of a row without operator are NULL. *)
Definition GroupKey : Type :=
  option string * option string * option string * option string.

Definition group_by (j : Joined) : GroupKey :=
  (l_apwId (j_l j), l_email (j_l j), j_op j ≫= op_name, j_op j ≫= op_email).

(** One row of the result set, under the column aliases of the SELECT. *)
Record Row := mkRow {
  apw_id : option string;
  lead_email : option string;
  ca_name : option string;
  ca_email : option string;
  completed_75_plus : Z;
  pending_75_plus : Z;
  in_progress_75_plus : Z;
  not_relevant_75_plus : Z;
  job_not_found_75_plus : Z;
  already_applied_75_plus : Z
}.

(** The SELECT list, evaluated on one group. *)
Definition select (k : GroupKey) (group : list Joined) : Row :=
  let '(a, e, n, m) := k in
  {| apw_id := a; lead_email := e; ca_name := n; ca_email := m;
     completed_75_plus := count_filter "completed" group;
     pending_75_plus := count_filter "pending" group;
     in_progress_75_plus := count_filter "in_progress" group;
     not_relevant_75_plus := count_filter "not_relevant" group;
     job_not_found_75_plus := count_filter "job_not_found" group;
     already_applied_75_plus := count_filter "already_applied" group |}.

(** The rows of one group. *)
Definition group_of (k : GroupKey) (rows : list Joined) : list Joined :=
  filter (λ j, group_by j = k) rows.

(** GROUP BY with its aggregates: one result row per distinct value of the
    grouping columns (NULLs group together). *)
Definition aggregate (rows : list Joined) : list Row :=
  (λ k, select k (group_of k rows)) <$> remove_dups (group_by <$> rows).

(** [ORDER BY op.name]: ascending in the collation of the store, NULLs
    last (the PostgreSQL default for ASC).  SQL leaves the order of rows
    with the same name open; the sort below fixes one. *)
Definition order_by (coll : string -> string -> bool) (r1 r2 : Row) : Prop :=
  match ca_name r1, ca_name r2 with
  | Some a, Some b => coll a b = true
  | _, None => True
  | None, Some _ => False
  end.

#[global] Instance order_by_dec coll r1 r2 : Decision (order_by coll r1 r2).
Proof. unfold order_by. destruct (ca_name r1), (ca_name r2); apply _. Defined.

(** The query of [get_task_status_summary]. *)
Definition query (db : Database) : list Row :=
  merge_sort (order_by (collate db))
    (aggregate (filter where_clause (from_clause db))).

(** ** Python values *)

(** The values found in a row dictionary. *)
Inductive pyval :=
| PNone
| PInt (n : Z)
| PStr (s : string).

#[global] Instance pyval_eq_dec : EqDecision pyval.
Proof. solve_decision. Defined.

(** A text column as psycopg2 hands it to Python. *)
Definition py_text (c : option string) : pyval :=
  match c with
  | Some s => PStr s
  | None => PNone
  end.

(** [dict(row)] for a [RealDictCursor] row of the query. *)
Definition dict (r : Row) : gmap string pyval :=
  list_to_map
    [("apw_id", py_text (apw_id r));
     ("lead_email", py_text (lead_email r));
     ("ca_name", py_text (ca_name r));
     ("ca_email", py_text (ca_email r));
     ("completed_75_plus", PInt (completed_75_plus r));
     ("pending_75_plus", PInt (pending_75_plus r));
     ("in_progress_75_plus", PInt (in_progress_75_plus r));
     ("not_relevant_75_plus", PInt (not_relevant_75_plus r));
     ("job_not_found_75_plus", PInt (job_not_found_75_plus r));
     ("already_applied_75_plus", PInt (already_applied_75_plus r))].

(** Truthiness of a value ([if v], [v or d]). *)
Definition truthy (v : pyval) : bool :=
  match v with
  | PNone => false
  | PInt n => negb (n =? 0)
  | PStr s => negb (String.eqb s "")
  end.

(** [v or d]. *)
Definition py_or (v d : pyval) : pyval := if truthy v then v else d.

(** [str(v)], which is what an f-string hole prints. *)
Definition py_str (v : pyval) : string :=
  match v with
  | PNone => "None"
  | PInt n => str_of_int n
  | PStr s => s
  end.

(** [d.get(key, default)]. *)
Definition get (d : gmap string pyval) (key : string) (dflt : pyval) : pyval :=
  default dflt (d !! key).

(** The values of the JSON object that the endpoint returns. *)
Inductive json :=
| JBool (b : bool)
| JInt (n : Z)
| JStr (s : string)
| JRows (rows : list (gmap string pyval)).

(** ** Exceptions, events and the effect monad *)

Inductive Exn :=
| ValueError (msg : string)
| TypeError (msg : string)
| KeyError (key : string)
| HTTPException (status_code : Z) (detail : string)
| Psycopg2Error (msg : string)
| RequestException (msg : string)
| OtherException (msg : string)
| SystemExit (code : Z).

(** [except Exception] catches everything but [SystemExit]. *)
Definition is_Exception (e : Exn) : bool :=
  match e with
  | SystemExit _ => false
  | _ => true
  end.

(** [str(e)]. *)
Definition exn_str (e : Exn) : string :=
  match e with
  | ValueError msg | TypeError msg | Psycopg2Error msg
  | RequestException msg | OtherException msg => msg
  | KeyError key => "'" +:+ key +:+ "'"
  | HTTPException status_code detail => str_of_int status_code +:+ ": " +:+ detail
  | SystemExit code => str_of_int code
  end.

(** The JSON payload of the [sendMail] request. *)
Record MailPayload := mkMailPayload {
  subject : string;
  content : string;
  toRecipients : list string;
  ccRecipients : option (list string);
  saveToSentItems : bool
}.

Inductive Body :=
| FormData (data : list (string * string))
| Json (payload : MailPayload).

(** What the process does to the outside world, in order. *)
Inductive Event :=
| Psycopg2Connect (dsn : string)
| ConnCursor
| CursorExecute
| CursorFetchall
| CursorClose
| ConnClose
| RequestsPost (url : string) (headers : list (string * string)) (body : Body)
| Print (line : string)
| PrintResult (result : gmap string json)
| PrintTraceback.

(** A computation: the events it caused, and the exception it raised or the
    value it returned. *)
Record Eff (A : Type) := mkEff {
  trace : list Event;
  outcome : Exn + A
}.
Arguments mkEff {A} _ _.
Arguments trace {A} _.
Arguments outcome {A} _.

#[global] Instance Eff_ret : MRet Eff := λ A a, mkEff [] (inr a).

#[global] Instance Eff_bind : MBind Eff := λ A B f m,
  match outcome m with
  | inl e => mkEff (trace m) (inl e)
  | inr a => mkEff (trace m ++ trace (f a)) (outcome (f a))
  end.

Definition raise {A : Type} (e : Exn) : Eff A := mkEff [] (inl e).

Definition emit (ev : Event) : Eff () := mkEff [ev] (inr ()).

Definition print (line : string) : Eff () := emit (Print line).

(** [try: body / except: handler]; the handler answers [None] for an
    exception that its [except] clause does not match. *)
Definition try_except {A : Type} (body : Eff A) (handler : Exn -> option (Eff A)) : Eff A :=
  match outcome body with
  | inr _ => body
  | inl e =>
      match handler e with
      | Some h => mkEff (trace body ++ trace h) (outcome h)
      | None => body
      end
  end.

(** [try: body / finally: cleanup]: the cleanup runs on every exit of the
    body, and the body's outcome stands unless the cleanup raises. *)
Definition try_finally {A : Type} (body : Eff A) (cleanup : Eff ()) : Eff A :=
  mkEff (trace body ++ trace cleanup)
        (match outcome cleanup with
         | inl e => inl e
         | inr _ => outcome body
         end).

(** ** The outside world *)

(** One reading of [datetime.utcnow()], with the three formats the script
    prints.  The clock of a run is the sequence of its readings, one per
    call. *)
Record Clock := mkClock {
  strftime_Ymd : string;
  strftime_Ymd_HM : string;
  year : Z
}.

(** An HTTP response as [requests] shows it; [access_token] is
    [res.json().get("access_token")] and [json_repr] what printing
    [res.json()] shows. *)
Record Response := mkResponse {
  status_code : Z;
  text : string;
  access_token : option string;
  json_repr : string
}.

(** [res.ok]. *)
Definition ok (res : Response) : bool := status_code res <? 400.

Inductive HttpAnswer :=
| Raises (e : Exn)
| Responds (res : Response).

(** Everything one run reads from outside the process. *)
Record World := mkWorld {
  store : Database;
  connect_answer : option Exn;
  execute_answer : option Exn;
  token_answer : HttpAnswer;
  mail_answer : HttpAnswer;
  utcnow : nat -> Clock
}.

(** [requests.post]. *)
Definition requests_post (url : string) (headers : list (string * string))
    (body : Body) (answer : HttpAnswer) : Eff Response :=
  emit (RequestsPost url headers body);;
  match answer with
  | Raises e => raise e
  | Responds res => mret res
  end.

(** ** Configuration *)

(** [s.split(sep)] for a one-character separator. *)
Fixpoint split (sep : ascii) (s : string) : list string :=
  match s with
  | EmptyString => [EmptyString]
  | String c s' =>
      if Ascii.eqb c sep then EmptyString :: split sep s'
      else match split sep s' with
           | [] => [String c EmptyString]
           | w :: ws => String c w :: ws
           end
  end.

(** The ASCII characters that [str.strip] removes. *)
Definition is_space (c : ascii) : bool :=
  let n := nat_of_ascii c in
  ((9 <=? n)%nat && (n <=? 13)%nat) || ((28 <=? n)%nat && (n <=? 32)%nat).

Fixpoint lstrip (s : string) : string :=
  match s with
  | EmptyString => EmptyString
  | String c s' => if is_space c then lstrip s' else s
  end.

Fixpoint rstrip (s : string) : string :=
  match s with
  | EmptyString => EmptyString
  | String c s' =>
      match rstrip s' with
      | EmptyString => if is_space c then EmptyString else String c EmptyString
      | r => String c r
      end
  end.

(** [s.strip()]. *)
Definition strip (s : string) : string := rstrip (lstrip s).

(** Truthiness of [os.getenv(...)]: set, and not the empty string. *)
Definition env_truthy (v : option string) : bool :=
  match v with
  | Some s => negb (String.eqb s "")
  | None => false
  end.

(** The module-level names that the functions read. *)
Record Config := mkConfig {
  TENANT_ID : string;
  CLIENT_ID : string;
  CLIENT_SECRET : string;
  SENDER_EMAIL : string;
  DATABASE_URL : string;
  CC_EMAIL_RECIPIENTS : list string
}.

Definition APP_NAME : string := "Task Management".
Definition JOB_LINKS_THRESHOLD : Z := 60.
Definition TEST_EMAIL_RECIPIENT : string := "bhanutejathouti@gmail.com".

(** The module body down to the definition of the functions.  [env] is
    [os.environ] after [load_dotenv]. *)
Definition module_level (env : gmap string string) : Eff Config :=
  let TENANT_ID := env !! "AZURE_TENANT_ID" in
  let CLIENT_ID := env !! "AZURE_CLIENT_ID" in
  let CLIENT_SECRET := env !! "AZURE_CLIENT_SECRET" in
  let SENDER_EMAIL := default "support@applywizz.com" (env !! "SENDER_EMAIL") in
  if negb (forallb env_truthy [TENANT_ID; CLIENT_ID; CLIENT_SECRET]) then
    raise (ValueError
      ("Missing required Azure AD credentials. Please set the following environment variables:" +:+ nl +:+
       "  - AZURE_TENANT_ID" +:+ nl +:+
       "  - AZURE_CLIENT_ID" +:+ nl +:+
       "  - AZURE_CLIENT_SECRET"))
  else
  let DATABASE_URL := env !! "DATABASE_URL" in
  if negb (env_truthy DATABASE_URL) then
    raise (ValueError
      ("Missing required DATABASE_URL environment variable. " +:+
       "Please set it in your .env file."))
  else
  let CC_RECIPIENTS_STR := default "" (env !! "CC_EMAIL_RECIPIENTS") in
  let CC_EMAIL_RECIPIENTS :=
    strip <$> filter (λ email, strip email ≠ "") (split "," CC_RECIPIENTS_STR) in
  mret {| TENANT_ID := default "" TENANT_ID;
          CLIENT_ID := default "" CLIENT_ID;
          CLIENT_SECRET := default "" CLIENT_SECRET;
          SENDER_EMAIL := SENDER_EMAIL;
          DATABASE_URL := default "" DATABASE_URL;
          CC_EMAIL_RECIPIENTS := CC_EMAIL_RECIPIENTS |}.

(** ** Database connection *)

Definition get_db_connection (cfg : Config) (w : World) : Eff () :=
  try_except
    (emit (Psycopg2Connect (DATABASE_URL cfg));;
     match connect_answer w with
     | Some e => raise e
     | None => mret ()
     end)
    (λ e, if is_Exception e then
            Some (print ("‚ùå Database connection error: " +:+ exn_str e);;
                  raise (HTTPException 500 "Database connection failed"))
          else None).

(** ** Query task status summary *)

(** [with conn.cursor(cursor_factory=RealDictCursor) as cursor: body];
    opening a cursor on a connection that has just been opened is a local
    operation and does not fail. *)
Definition with_cursor {A : Type} (body : Eff A) : Eff A :=
  emit ConnCursor;;
  try_finally body (emit CursorClose).

Definition get_task_status_summary (cfg : Config) (w : World)
    : Eff (list (gmap string pyval)) :=
  conn ← get_db_connection cfg w;
  try_finally
    (try_except
       (with_cursor
          (emit CursorExecute;;
           match execute_answer w with
           | Some e => raise e
           | None => mret ()
           end;;
           emit CursorFetchall;;
           let results := query (store w) in
           mret (dict <$> results)))
       (λ e, match e with
             | Psycopg2Error _ =>
                 Some (print ("‚ùå Database query error: " +:+ exn_str e);;
                       raise (HTTPException 500 "Database query failed"))
             | _ => None
             end))
    (emit ConnClose).

(** ** Azure AD token *)

Definition get_access_token (cfg : Config) (w : World) : Eff string :=
  let token_url :=
    "https://login.microsoftonline.com/" +:+ TENANT_ID cfg +:+ "/oauth2/v2.0/token" in
  let data :=
    [("client_id", CLIENT_ID cfg);
     ("client_secret", CLIENT_SECRET cfg);
     ("scope", "https://graph.microsoft.com/.default");
     ("grant_type", "client_credentials")] in
  res ← requests_post token_url [] (FormData data) (token_answer w);
  if negb (ok res) then
    print ("‚ùå Error getting access token: " +:+ str_of_int (status_code res)
           +:+ " " +:+ text res);;
    raise (HTTPException 500 "Failed to get access token from Azure AD")
  else
    if negb (env_truthy (access_token res)) then
      print ("‚ùå No access_token in token response: " +:+ json_repr res);;
      raise (HTTPException 500 "No access token received from Azure AD")
    else mret (default "" (access_token res)).

(** ** Send mail via Graph *)

Definition send_mail_via_graph (cfg : Config) (w : World)
    (to subject html : string) (cc : option (list string)) : Eff () :=
  access_token ← get_access_token cfg w;
  let url := "https://graph.microsoft.com/v1.0/users/" +:+ SENDER_EMAIL cfg +:+ "/sendMail" in
  let payload :=
    {| subject := subject; content := html; toRecipients := [to];
       ccRecipients :=
         match cc with
         | Some (email :: emails) => Some (email :: emails)
         | _ => None
         end;
       saveToSentItems := true |} in
  let headers :=
    [("Authorization", "Bearer " +:+ access_token);
     ("Content-Type", "application/json")] in
  res ← requests_post url headers (Json payload) (mail_answer w);
  if negb (ok res) then
    print ("‚ùå Error sending email via Graph: " +:+ str_of_int (status_code res)
           +:+ " " +:+ text res);;
    raise (HTTPException 500 "Failed to send email via Microsoft Graph")
  else mret ().

(** ** The HTML template *)

(** The f-string appended to [task_rows] for one row, as a function of the
    texts that fill its holes. *)
Definition task_row_html 
  (idx apw_id lead_email ca_name ca_email completed pending in_progress
   not_relevant job_not_found already_applied total_tasks : string)
  : string :=
  String.concat "" [
    nl; "        <tr style="; dq; "border-bottom: 1px solid #e5e7eb;"; dq;
    ">"; nl; "            <td style="; dq;
    "padding: 10px 8px; text-align: center; color: #6b7280; font-weight: 600; font-size: 13px;";
    dq; ">"; idx; "</td>"; nl; "            <td style="; dq;
    "padding: 10px 8px; text-align: center; color: #111827; font-weight: 600; font-size: 13px;";
    dq; ">"; apw_id; "</td>"; nl; "            <td style="; dq;
    "padding: 10px 8px; color: #4b5563; font-family: ui-monospace, monospace; font-size: 12px;";
    dq; ">"; lead_email; "</td>"; nl; "            <td style="; dq;
    "padding: 10px 8px; color: #111827; font-weight: 600; font-size: 13px;";
    dq; ">"; ca_name; "</td>"; nl; "            <td style="; dq;
    "padding: 10px 8px; color: #6b7280; font-family: ui-monospace, monospace; font-size: 12px;";
    dq; ">"; ca_email; "</td>"; nl; "            <td style="; dq;
    "padding: 10px 8px; text-align: center; font-weight: 700; color: #059669; font-size: 13px;";
    dq; ">"; completed; "</td>"; nl; "            <td style="; dq;
    "padding: 10px 8px; text-align: center; font-weight: 700; color: #f59e0b; font-size: 13px;";
    dq; ">"; pending; "</td>"; nl; "            <td style="; dq;
    "padding: 10px 8px; text-align: center; font-weight: 700; color: #3b82f6; font-size: 13px;";
    dq; ">"; in_progress; "</td>"; nl; "            <td style="; dq;
    "padding: 10px 8px; text-align: center; font-weight: 700; color: #6b7280; font-size: 13px;";
    dq; ">"; not_relevant; "</td>"; nl; "            <td style="; dq;
    "padding: 10px 8px; text-align: center; font-weight: 700; color: #dc2626; font-size: 13px;";
    dq; ">"; job_not_found; "</td>"; nl; "            <td style="; dq;
    "padding: 10px 8px; text-align: center; font-weight: 700; color: #8b5cf6; font-size: 13px;";
    dq; ">"; already_applied; "</td>"; nl; "            <td style="; dq;
    "padding: 10px 8px; text-align: center; font-weight: 700; color: #111827; font-size: 13px; background-color: #f3f4f6;";
    dq; ">"; total_tasks; "</td>"; nl; "        </tr>"; nl; "        "].

(** The document f-string up to the hole for [task_rows]; [utcnow i] is the
    reading of the clock at the [i]-th call of [datetime.utcnow()] in the
    f-string. *)
Definition html_before_rows (app_name len_tasks_data : string)
    (utcnow : nat -> Clock) : string :=
  String.concat "" [
    "<!DOCTYPE html>"; nl; "<html lang="; dq; "en"; dq; ">"; nl; "<head>";
    nl; "  <meta charSet="; dq; "UTF-8"; dq; " />"; nl; "  <title>";
    app_name; " ‚Äì Daily Task Status Report (Score ‚â• 75)</title>"; nl;
    "  <meta name="; dq; "viewport"; dq; " content="; dq;
    "width=device-width, initial-scale=1"; dq; " />"; nl; "  <style>"; nl;
    "    body {"; nl; "      margin: 0;"; nl; "      padding: 0;"; nl;
    "      background-color: #f3f4f6;"; nl;
    "      font-family: system-ui, -apple-system, BlinkMacSystemFont, ";
    dq; "Segoe UI"; dq; ", sans-serif;"; nl; "      color: #111827;"; nl;
    "    }"; nl; "    .container {"; nl; "      max-width: 1400px;"; nl;
    "      margin: 32px auto;"; nl; "      background: #ffffff;"; nl;
    "      border-radius: 16px;"; nl; "      overflow: hidden;"; nl;
    "      box-shadow: 0 18px 45px rgba(15, 23, 42, 0.12);"; nl; "    }";
    nl; "    .header {"; nl;
    "      background: linear-gradient(135deg, #3b82f6, #8b5cf6);"; nl;
    "      padding: 24px 32px;"; nl; "      color: white;"; nl;
    "      text-align: left;"; nl; "    }"; nl; "    .title {"; nl;
    "      background-color: #3b82f6;"; nl; "      margin-top: 10px;"; nl;
    "      font-size: 24px;"; nl; "      font-weight: 700;"; nl;
    "      color: white;"; nl; "    }"; nl; "    .sub {"; nl;
    "      background-color: #3b82f6;"; nl; "      margin-top: 6px;"; nl;
    "      font-size: 14px;"; nl; "      opacity: 0.9;"; nl;
    "      color: white;"; nl; "    }"; nl; "    .body {"; nl;
    "      padding: 24px 32px 32px;"; nl; "      font-size: 14px;"; nl;
    "      line-height: 1.6;"; nl; "    }"; nl; "    .info-box {"; nl;
    "      background-color: #eff6ff;"; nl;
    "      border-left: 4px solid #3b82f6;"; nl; "      padding: 16px;";
    nl; "      margin: 20px 0;"; nl; "      border-radius: 8px;"; nl;
    "    }"; nl; "    .table-wrapper {"; nl; "      overflow-x: auto;"; nl;
    "      margin: 20px 0;"; nl; "    }"; nl; "    table {"; nl;
    "      width: 100%;"; nl; "      min-width: 1300px;"; nl;
    "      border-collapse: collapse;"; nl; "      background: white;"; nl;
    "      border: 1px solid #e5e7eb;"; nl; "      border-radius: 8px;";
    nl; "      overflow: hidden;"; nl; "    }"; nl; "    th {"; nl;
    "      background: #f9fafb;"; nl; "      padding: 10px 8px;"; nl;
    "      text-align: left;"; nl; "      font-weight: 700;"; nl;
    "      font-size: 11px;"; nl; "      text-transform: uppercase;"; nl;
    "      letter-spacing: 0.03em;"; nl; "      color: #6b7280;"; nl;
    "      border-bottom: 2px solid #e5e7eb;"; nl;
    "      white-space: nowrap;"; nl; "    }"; nl; "    td {"; nl;
    "      padding: 10px 8px;"; nl; "      font-size: 13px;"; nl;
    "      border-bottom: 1px solid #f3f4f6;"; nl; "    }"; nl;
    "    th:nth-child(1), th:nth-child(2), th:nth-child(6), th:nth-child(7), th:nth-child(8), ";
    nl;
    "    th:nth-child(9), th:nth-child(10), th:nth-child(11), th:nth-child(12) {";
    nl; "      text-align: center;"; nl; "    }"; nl; "    .footer {"; nl;
    "      padding: 16px 32px 24px;"; nl; "      font-size: 11px;"; nl;
    "      color: #9ca3af;"; nl; "      text-align: center;"; nl; "    }";
    nl; "    .cta-button {"; nl; "      display: inline-block;"; nl;
    "      margin-top: 18px;"; nl; "      padding: 12px 24px;"; nl;
    "      background: linear-gradient(135deg, #3b82f6, #8b5cf6);"; nl;
    "      color: white !important;"; nl; "      text-decoration: none;";
    nl; "      border-radius: 999px;"; nl; "      font-weight: 600;"; nl;
    "      font-size: 14px;"; nl; "    }"; nl; "    .legend {"; nl;
    "      display: flex;"; nl; "      flex-wrap: wrap;"; nl;
    "      gap: 16px;"; nl; "      margin: 20px 0;"; nl;
    "      padding: 16px;"; nl; "      background: #f9fafb;"; nl;
    "      border-radius: 8px;"; nl; "    }"; nl; "    .legend-item {"; nl;
    "      display: flex;"; nl; "      align-items: center;"; nl;
    "      gap: 8px;"; nl; "      font-size: 12px;"; nl; "    }"; nl;
    "    .legend-color {"; nl; "      width: 16px;"; nl;
    "      height: 16px;"; nl; "      border-radius: 4px;"; nl; "    }";
    nl; "  </style>"; nl; "</head>"; nl; "<body>"; nl; "  <div class="; dq;
    "container"; dq; ">"; nl; "    <div class="; dq; "header"; dq; ">"; nl;
    "      <div class="; dq; "title"; dq;
    ">üìä Daily Task Status Report (Score ‚â• 75)</div>"; nl;
    "      <div class="; dq; "sub"; dq; ">"; nl;
    "        Task status breakdown for "; len_tasks_data;
    " lead-CA combination(s) - "; strftime_Ymd (utcnow 0%nat); nl;
    "      </div>"; nl; "    </div>"; nl; "    <div class="; dq; "body";
    dq; ">"; nl; "      <p>Hi Team,</p>"; nl; "      <p>"; nl;
    "        This is your daily task status report showing the breakdown of all tasks created today with a score of <strong>75 or higher</strong>, grouped by lead and assigned CA (Customer Advocate).";
    nl; "      </p>"; nl; nl; "      <div class="; dq; "info-box"; dq; ">";
    nl;
    "        <strong>‚ÑπÔ∏è Report Details:</strong> This report includes only tasks with scores ‚â• 75 created on ";
    strftime_Ymd (utcnow 1%nat); " (UTC)."; nl; "      </div>"; nl; nl;
    "      <div class="; dq; "legend"; dq; ">"; nl; "        <div class=";
    dq; "legend-item"; dq; ">"; nl; "          <div class="; dq;
    "legend-color"; dq; " style="; dq; "background-color: #059669;"; dq;
    "></div>"; nl;
    "          <span><strong>Completed:</strong> Tasks successfully completed</span>";
    nl; "        </div>"; nl; "        <div class="; dq; "legend-item"; dq;
    ">"; nl; "          <div class="; dq; "legend-color"; dq; " style=";
    dq; "background-color: #f59e0b;"; dq; "></div>"; nl;
    "          <span><strong>Pending:</strong> Tasks awaiting action</span>";
    nl; "        </div>"; nl; "        <div class="; dq; "legend-item"; dq;
    ">"; nl; "          <div class="; dq; "legend-color"; dq; " style=";
    dq; "background-color: #3b82f6;"; dq; "></div>"; nl;
    "          <span><strong>In Progress:</strong> Tasks currently being worked on</span>";
    nl; "        </div>"; nl; "        <div class="; dq; "legend-item"; dq;
    ">"; nl; "          <div class="; dq; "legend-color"; dq; " style=";
    dq; "background-color: #6b7280;"; dq; "></div>"; nl;
    "          <span><strong>Not Relevant:</strong> Tasks marked as not relevant</span>";
    nl; "        </div>"; nl; "        <div class="; dq; "legend-item"; dq;
    ">"; nl; "          <div class="; dq; "legend-color"; dq; " style=";
    dq; "background-color: #dc2626;"; dq; "></div>"; nl;
    "          <span><strong>Job Not Found:</strong> Tasks where job posting was not found</span>";
    nl; "        </div>"; nl; "        <div class="; dq; "legend-item"; dq;
    ">"; nl; "          <div class="; dq; "legend-color"; dq; " style=";
    dq; "background-color: #8b5cf6;"; dq; "></div>"; nl;
    "          <span><strong>Already Applied:</strong> Jobs already applied to</span>";
    nl; "        </div>"; nl; "      </div>"; nl; nl; "      <h3 style=";
    dq; "color: #111827; margin-top: 24px;"; dq;
    ">Task Status Breakdown by Lead & CA</h3>"; nl; "      "; nl;
    "      <div class="; dq; "table-wrapper"; dq; ">"; nl;
    "        <table>"; nl; "          <thead>"; nl; "            <tr>"; nl;
    "              <th>#</th>"; nl; "              <th>APW ID</th>"; nl;
    "              <th>Lead Email</th>"; nl;
    "              <th>CA Name</th>"; nl;
    "              <th>CA Email</th>"; nl; "              <th style="; dq;
    "background-color: #ecfdf5;"; dq; ">Completed</th>"; nl;
    "              <th style="; dq; "background-color: #fffbeb;"; dq;
    ">Pending</th>"; nl; "              <th style="; dq;
    "background-color: #eff6ff;"; dq; ">In Progress</th>"; nl;
    "              <th style="; dq; "background-color: #f9fafb;"; dq;
    ">Not Relevant</th>"; nl; "              <th style="; dq;
    "background-color: #fef2f2;"; dq; ">Job Not Found</th>"; nl;
    "              <th style="; dq; "background-color: #f5f3ff;"; dq;
    ">Already Applied</th>"; nl; "              <th style="; dq;
    "background-color: #f3f4f6;"; dq; ">Total</th>"; nl;
    "            </tr>"; nl; "          </thead>"; nl; "          <tbody>";
    nl; "            "].

(** The document f-string after the hole for [task_rows]. *)
Definition html_after_rows (app_name support_url : string)
    (utcnow : nat -> Clock) : string :=
  String.concat "" [
    nl; "          </tbody>"; nl; "        </table>"; nl; "      </div>";
    nl; nl; "      <p style="; dq;
    "margin-top: 24px; color: #6b7280; font-size: 13px;"; dq; ">"; nl;
    "        <strong>Key Insights:</strong>"; nl; "      </p>"; nl;
    "      <ul style="; dq; "color: #6b7280; font-size: 13px;"; dq; ">";
    nl; "        <li>Review leads with high "; dq; "Not Relevant"; dq;
    " or "; dq; "Job Not Found"; dq; " counts</li>"; nl;
    "        <li>Monitor "; dq; "Pending"; dq;
    " tasks to ensure timely completion</li>"; nl; "        <li>Check ";
    dq; "Already Applied"; dq;
    " tasks to avoid duplicate applications</li>"; nl;
    "        <li>Celebrate leads with high "; dq; "Completed"; dq;
    " task counts</li>"; nl; "      </ul>"; nl; nl; "      <a href="; dq;
    support_url; dq; " class="; dq; "cta-button"; dq; " target="; dq;
    "_blank"; dq; " rel="; dq; "noopener noreferrer"; dq; ">"; nl;
    "        View Dashboard"; nl; "      </a>"; nl; nl; "      <p style=";
    dq; "margin-top: 24px; color: #9ca3af; font-size: 12px;"; dq; ">"; nl;
    "        This is an automated notification from "; app_name;
    ". Generated on "; strftime_Ymd_HM (utcnow 2%nat); "."; nl;
    "      </p>"; nl; "    </div>"; nl; "    <div class="; dq; "footer";
    dq; ">"; nl; "      ¬© "; str_of_int (year (utcnow 3%nat)); " ";
    app_name; ". All rights reserved."; nl; "    </div>"; nl; "  </div>";
    nl; "</body>"; nl; "</html>"; nl].

(** [a + b] on the values of a row dictionary. *)
Definition py_add (a b : pyval) : Eff pyval :=
  match a, b with
  | PInt x, PInt y => mret (PInt (x + y))
  | PStr x, PStr y => mret (PStr (x +:+ y))
  | _, _ => raise (TypeError "unsupported operand type(s) for +")
  end.

(** One iteration of the loop over [enumerate(tasks_data, 1)]: the text
    appended to [task_rows]. *)
Definition render_row (idx : Z) (task : gmap string pyval) : Eff string :=
  let apw_id := py_or (get task "apw_id" (PStr "N/A")) (PStr "N/A") in
  let lead_email := get task "lead_email" (PStr "N/A") in
  let ca_name := py_or (get task "ca_name" (PStr "N/A")) (PStr "N/A") in
  let ca_email := py_or (get task "ca_email" (PStr "N/A")) (PStr "N/A") in
  let completed := get task "completed_75_plus" (PInt 0) in
  let pending := get task "pending_75_plus" (PInt 0) in
  let in_progress := get task "in_progress_75_plus" (PInt 0) in
  let not_relevant := get task "not_relevant_75_plus" (PInt 0) in
  let job_not_found := get task "job_not_found_75_plus" (PInt 0) in
  let already_applied := get task "already_applied_75_plus" (PInt 0) in
  s1 ← py_add completed pending;
  s2 ← py_add s1 in_progress;
  s3 ← py_add s2 not_relevant;
  s4 ← py_add s3 job_not_found;
  total_tasks ← py_add s4 already_applied;
  mret (task_row_html (str_of_int idx) (py_str apw_id) (py_str lead_email)
          (py_str ca_name) (py_str ca_email) (py_str completed)
          (py_str pending) (py_str in_progress) (py_str not_relevant)
          (py_str job_not_found) (py_str already_applied)
          (py_str total_tasks)).

(** The loop, from index [idx] on, with the text accumulated so far. *)
Fixpoint render_rows (idx : Z) (tasks_data : list (gmap string pyval))
    (task_rows : string) : Eff string :=
  match tasks_data with
  | [] => mret task_rows
  | task :: rest =>
      row ← render_row idx task;
      render_rows (idx + 1) rest (task_rows +:+ row)
  end.

Definition default_support_url : string := "https://dashboard.apply-wizz.com/".

Definition build_task_status_email_template (app_name : string)
    (tasks_data : list (gmap string pyval)) (support_url : string)
    (utcnow : nat -> Clock) : Eff string :=
  task_rows ← render_rows 1 tasks_data "";
  mret (html_before_rows app_name (str_of_int (Z.of_nat (length tasks_data))) utcnow
        +:+ task_rows
        +:+ html_after_rows app_name support_url utcnow).

(** ** The report endpoint *)

(** [sum(values)]. *)
Definition py_sum (values : list pyval) : Eff pyval :=
  foldl (λ (acc : Eff pyval) v, a ← acc; py_add a v) (mret (PInt 0)) values.

(** [task[key]]. *)
Definition subscript (task : gmap string pyval) (key : string) : Eff pyval :=
  match task !! key with
  | Some v => mret v
  | None => raise (KeyError key)
  end.

(** The body of the loop that prints the first rows. *)
Definition print_row_total (task : gmap string pyval) : Eff () :=
  total ← py_sum [get task "completed_75_plus" (PInt 0);
                  get task "pending_75_plus" (PInt 0);
                  get task "in_progress_75_plus" (PInt 0);
                  get task "not_relevant_75_plus" (PInt 0);
                  get task "job_not_found_75_plus" (PInt 0);
                  get task "already_applied_75_plus" (PInt 0)];
  apw ← subscript task "apw_id";
  ca ← subscript task "ca_name";
  print ("   - Lead " +:+ py_str apw +:+ " / CA " +:+ py_str ca +:+ ": "
         +:+ py_str total +:+ " tasks").

(** [for x in xs: body x]. *)
Fixpoint for_each {A : Type} (xs : list A) (body : A -> Eff ()) : Eff () :=
  match xs with
  | [] => mret ()
  | x :: rest => body x;; for_each rest body
  end.

Definition send_task_status_report (cfg : Config) (w : World)
    : Eff (gmap string json) :=
  task_summary ← get_task_status_summary cfg w;
  match task_summary with
  | [] =>
      mret (list_to_map
              [("success", JBool true);
               ("message", JStr "No tasks found for today with score >= 75");
               ("task_count", JInt 0);
               ("email_sent", JBool false)])
  | _ =>
      let len_task_summary := Z.of_nat (length task_summary) in
      let subject :=
        APP_NAME +:+ " - Daily Task Status Report (Score ‚â• 75) - "
        +:+ strftime_Ymd (utcnow w 0%nat) in
      html ← build_task_status_email_template APP_NAME task_summary
               default_support_url (λ i, utcnow w (S i));
      send_mail_via_graph cfg w TEST_EMAIL_RECIPIENT subject html
        (Some (CC_EMAIL_RECIPIENTS cfg));;
      print ("‚úÖ Daily task status report sent to " +:+ TEST_EMAIL_RECIPIENT);;
      print ("   Total lead-CA combinations: " +:+ str_of_int len_task_summary);;
      for_each (take 5 task_summary) print_row_total;;
      (if 5 <? len_task_summary then
         print ("   ... and " +:+ str_of_int (len_task_summary - 5) +:+ " more")
       else mret ());;
      mret (list_to_map
              [("success", JBool true);
               ("message",
                JStr ("Daily task status report sent for "
                      +:+ str_of_int len_task_summary
                      +:+ " lead-CA combination(s)"));
               ("task_combinations_count", JInt len_task_summary);
               ("tasks_data", JRows task_summary);
               ("email_sent", JBool true);
               ("email_sent_to", JStr TEST_EMAIL_RECIPIENT)])
  end.

(** ** Running the module as a script *)

(** The whole module run as [__main__]: the module-level configuration,
    then the guarded call of the report. *)
Definition main (env : gmap string string) (w : World) : Eff () :=
  cfg ← module_level env;
  print "üöÄ Starting daily task status report...";;
  try_except
    (result ← send_task_status_report cfg w;
     print "‚úÖ Execution completed successfully!";;
     emit (PrintResult result))
    (λ e, if is_Exception e then
            Some (print ("‚ùå Error occurred: " +:+ exn_str e);;
                  emit PrintTraceback;;
                  raise (SystemExit 1))
          else None).

(** ** Vocabulary of the claims *)

(** The six literals that the SELECT list compares [LOWER(t.status)] with,
    in the order of its columns. *)
Definition status_literals : list string :=
  ["completed"; "pending"; "in_progress"; "not_relevant"; "job_not_found";
   "already_applied"].

(** A task whose status is, up to case, one of the six literals. *)
Definition recognized (j : Joined) : Prop :=
  Exists (λ lit, status_is lit j) status_literals.

(** An eligible task: created in the window, with a score of 75 or more. *)
Definition eligible (j : Joined) : Prop :=
  where_clause j ∧ score_75_plus j.

(** The task [j] is among the rows that the counter for [lit] counts: it
    passes the WHERE clause and the FILTER of that counter. *)
Definition counted_in (lit : string) (j : Joined) : Prop :=
  where_clause j ∧ filter_clause lit j.

(** The task is counted in some counter. *)
Definition counted (j : Joined) : Prop :=
  Exists (λ lit, counted_in lit j) status_literals.

#[global] Instance recognized_dec j : Decision (recognized j).
Proof. unfold recognized. apply _. Defined.

#[global] Instance eligible_dec j : Decision (eligible j).
Proof. unfold eligible. apply _. Defined.

#[global] Instance counted_in_dec lit j : Decision (counted_in lit j).
Proof. unfold counted_in. apply _. Defined.

#[global] Instance counted_dec j : Decision (counted j).
Proof. unfold counted. apply _. Defined.

(** The (lead, operator) pair of a result row, as the row shows it. *)
Definition row_key (r : Row) : GroupKey :=
  (apw_id r, lead_email r, ca_name r, ca_email r).

(** The sum of the six counts of a row. *)
Definition six_counts_sum (r : Row) : Z :=
  completed_75_plus r + pending_75_plus r + in_progress_75_plus r
  + not_relevant_75_plus r + job_not_found_75_plus r
  + already_applied_75_plus r.

(** The number of tasks of the pair [k] that satisfy [P]. *)
Definition tasks_of (db : Database) (P : Joined -> Prop)
    `{!∀ j, Decision (P j)} (k : GroupKey) : Z :=
  Z.of_nat (length (filter (λ j, P j ∧ group_by j = k) (from_clause db))).

(** The keys of the store are unique and the references of every task to
    its scored job and to its lead resolve, as the schema requires. *)
Definition well_keyed (db : Database) : Prop :=
  NoDup (sj_id <$> karmafy_scoredjob db)
  ∧ NoDup (l_id <$> karmafy_lead db)
  ∧ NoDup (op_user_id <$> karmafy_opsPerson db)
  ∧ ∀ t0, t0 ∈ karmafy_task db →
      (∃ s, s ∈ karmafy_scoredjob db ∧ sj_id s = t_scored_jobId t0)
      ∧ (∃ x, x ∈ karmafy_lead db ∧ l_id x = t_leadId t0).

(** The sum of [f] over a list. *)
Definition sumZ {A : Type} (f : A -> Z) (xs : list A) : Z :=
  foldr (λ x acc, f x + acc) 0 xs.

(** The sum of all the counts of a result set. *)
Definition grand_total (rows : list Row) : Z := sumZ six_counts_sum rows.

(** [upper(c)] on one character, the inverse of [lower_ascii] on letters. *)
Definition upper_ascii (c : ascii) : ascii :=
  let n := nat_of_ascii c in
  if ((97 <=? n)%nat && (n <=? 122)%nat)%bool then ascii_of_nat (n - 32) else c.

(** [recased s s']: the text [s'] is the text [s] with the case of some of
    its letters changed. *)
Inductive recased : string -> string -> Prop :=
| recased_empty : recased "" ""
| recased_keep c s s' : recased s s' → recased (String c s) (String c s')
| recased_lower c s s' :
    recased s s' → recased (String c s) (String (lower_ascii c) s')
| recased_upper c s s' :
    recased s s' → recased (String c s) (String (upper_ascii c) s').

(** The same task, with the case of its status changed. *)
Definition recased_task (t t' : Task) : Prop :=
  option_Forall2 recased (t_status t) (t_status t')
  ∧ t_id t = t_id t'
  ∧ t_createdAt t = t_createdAt t'
  ∧ t_scored_jobId t = t_scored_jobId t'
  ∧ t_leadId t = t_leadId t'
  ∧ t_ops_personId t = t_ops_personId t'.

(** The same store, with the case of the statuses of its tasks changed. *)
Definition recased_store (db db' : Database) : Prop :=
  Forall2 recased_task (karmafy_task db) (karmafy_task db')
  ∧ karmafy_scoredjob db = karmafy_scoredjob db'
  ∧ karmafy_lead db = karmafy_lead db'
  ∧ karmafy_opsPerson db = karmafy_opsPerson db'
  ∧ collate db = collate db'.

(** The task with its status in lower case, and the same for a joined row
    and for a store. *)
Definition lower_task (t : Task) : Task :=
  mkTask (t_id t) (LOWER <$> t_status t) (t_createdAt t) (t_scored_jobId t)
         (t_leadId t) (t_ops_personId t).

Definition lower_joined (j : Joined) : Joined :=
  mkJoined (lower_task (j_t j)) (j_sj j) (j_l j) (j_op j).

Definition lower_store (db : Database) : Database :=
  mkDatabase (lower_task <$> karmafy_task db) (karmafy_scoredjob db)
             (karmafy_lead db) (karmafy_opsPerson db) (collate db).

(** The module imported by the server, then one [POST
    /send-task-status-report]. *)
Definition endpoint (env : gmap string string) (w : World)
    : Eff (gmap string json) :=
  cfg ← module_level env;
  send_task_status_report cfg w.

(** The kinds of events that the claims speak of. *)
Definition is_execute (ev : Event) : bool :=
  match ev with
  | CursorExecute => true
  | _ => false
  end.

Definition is_conn_close (ev : Event) : bool :=
  match ev with
  | ConnClose => true
  | _ => false
  end.

Definition is_post (ev : Event) : bool :=
  match ev with
  | RequestsPost _ _ _ => true
  | _ => false
  end.

(** The number of events of a kind in a trace. *)
Definition count (kind : Event -> bool) (tr : list Event) : nat :=
  length (List.filter kind tr).

(** The six fields of the response, with their types. *)
Definition has_six_fields (d : gmap string json) : Prop :=
  (∃ b, d !! "success" = Some (JBool b))
  ∧ (∃ s, d !! "message" = Some (JStr s))
  ∧ (∃ n, d !! "task_combinations_count" = Some (JInt n))
  ∧ (∃ rows, d !! "tasks_data" = Some (JRows rows))
  ∧ (∃ b, d !! "email_sent" = Some (JBool b))
  ∧ (∃ s, d !! "email_sent_to" = Some (JStr s)).

(** The concatenation of a list of texts. *)
Definition join (texts : list string) : string := foldr String.append "" texts.

(** The table row of a result row, as the claims describe it: the six
    counts as they are, and their sum as the total. *)
Definition displayed_row (idx : Z) (r : Row) : string :=
  task_row_html (str_of_int idx)
    (py_str (py_or (py_text (apw_id r)) (PStr "N/A")))
    (py_str (py_text (lead_email r)))
    (py_str (py_or (py_text (ca_name r)) (PStr "N/A")))
    (py_str (py_or (py_text (ca_email r)) (PStr "N/A")))
    (str_of_int (completed_75_plus r))
    (str_of_int (pending_75_plus r))
    (str_of_int (in_progress_75_plus r))
    (str_of_int (not_relevant_75_plus r))
    (str_of_int (job_not_found_75_plus r))
    (str_of_int (already_applied_75_plus r))
    (str_of_int (six_counts_sum r)).


(** ** Sample data *)

(** A bytewise collation. *)
Definition bytewise (a b : string) : bool := String.leb a b.

Definition lead_1 : Lead := mkLead 20 (Some "APW-1") (Some "lead@example.com").
Definition jane : OpsPerson :=
  mkOpsPerson 30 (Some "Jane Doe") (Some "jane@example.com").

(** One task of lead 20 for operator 30, on scored job 10. *)
Definition task_of (id : Z) (status : string) (createdAt : timestamptz) : Task :=
  mkTask id (Some status) createdAt 10 20 (Some 30).

(** A store with the one lead, the one operator, one job of the given
    score and the given tasks. *)
Definition store_of (score : Z) (tasks : list Task) : Database :=
  {| karmafy_task := tasks;
     karmafy_scoredjob := [mkScoredJob 10 (Some score)];
     karmafy_lead := [lead_1];
     karmafy_opsPerson := [jane];
     collate := bytewise |}.

(** One eligible task whose status is none of the six. *)
Definition db_unrecognized : Database :=
  store_of 80 [task_of 1 "archived" window_start].

(** One task in the window whose score is below 75. *)
Definition db_low_score : Database :=
  store_of 10 [task_of 1 "completed" window_start].

(** Three completed tasks and a pending one, all eligible. *)
Definition db_jane : Database :=
  store_of 75 [task_of 1 "Completed" window_start;
               task_of 2 "COMPLETED" (window_start + 1);
               task_of 3 "completed" (window_end - 1);
               task_of 4 "Pending" (window_start + 2)].

Definition key_jane : GroupKey :=
  (Some "APW-1", Some "lead@example.com", Some "Jane Doe", Some "jane@example.com").

(** The row of a pair whose tasks are counted nowhere. *)
Definition row_zero : Row := mkRow (Some "APW-1") (Some "lead@example.com")
  (Some "Jane Doe") (Some "jane@example.com") 0 0 0 0 0 0.

(** A task of the sample lead and operator, joined with a job of the given
    score. *)
Definition joined_of (status : string) (createdAt : timestamptz) (score : Z)
    : Joined :=
  mkJoined (task_of 1 status createdAt) (mkScoredJob 10 (Some score))
           lead_1 (Some jane).

(** The row of tasks without operator of a lead without id and email. *)
Definition row_null : Row := mkRow None None None None 2 0 0 0 0 0.

Definition row_jane : Row := mkRow (Some "APW-1") (Some "lead@example.com")
  (Some "Jane Doe") (Some "jane@example.com") 3 1 0 0 0 0.

(** The same tasks as [db_jane], with the case of their statuses changed. *)
Definition db_jane_recased : Database :=
  store_of 75 [task_of 1 "COMPLETED" window_start;
               task_of 2 "completed" (window_start + 1);
               task_of 3 "Completed" (window_end - 1);
               task_of 4 "pENDING" (window_start + 2)].

(** A store without tasks. *)
Definition db_empty : Database := store_of 80 [].

Definition sample_clock (i : nat) : Clock :=
  mkClock "2025-12-23" "2025-12-23 18:30 UTC" 2025.

Definition sample_config : Config :=
  mkConfig "tenant" "client" "secret" "support@applywizz.com"
           "postgresql://store/karmafy" ["ops@example.com"].

(** A world where the store and both HTTP services answer well. *)
Definition world_of (db : Database) : World :=
  {| store := db;
     connect_answer := None;
     execute_answer := None;
     token_answer := Responds (mkResponse 200 "" (Some "token") "");
     mail_answer := Responds (mkResponse 202 "" None "");
     utcnow := sample_clock |}.

(** A world where the query fails. *)
Definition world_query_fails : World :=
  {| store := db_jane;
     connect_answer := None;
     execute_answer := Some (Psycopg2Error "relation does not exist");
     token_answer := Responds (mkResponse 200 "" (Some "token") "");
     mail_answer := Responds (mkResponse 202 "" None "");
     utcnow := sample_clock |}.

(** An environment without [DATABASE_URL]. *)
Definition env_no_database : gmap string string :=
  list_to_map [("AZURE_TENANT_ID", "tenant"); ("AZURE_CLIENT_ID", "client");
               ("AZURE_CLIENT_SECRET", "secret")].

(** A complete environment. *)
Definition env_complete : gmap string string :=
  <["DATABASE_URL" := "postgresql://store/karmafy"]> env_no_database.

(** What the endpoint returns on [db_jane]. *)
Definition response_jane : gmap string json :=
  list_to_map
    [("success", JBool true);
     ("message", JStr "Daily task status report sent for 1 lead-CA combination(s)");
     ("task_combinations_count", JInt 1);
     ("tasks_data", JRows [dict row_jane]);
     ("email_sent", JBool true);
     ("email_sent_to", JStr TEST_EMAIL_RECIPIENT)].

(** ** Vocabulary of the further properties *)

(** The keys of a row dictionary: the four text columns and the six count
    columns of the SELECT. *)
Definition text_columns : list string :=
  ["apw_id"; "lead_email"; "ca_name"; "ca_email"].

Definition count_columns : list string :=
  ["completed_75_plus"; "pending_75_plus"; "in_progress_75_plus";
   "not_relevant_75_plus"; "job_not_found_75_plus"; "already_applied_75_plus"].

(** The collation compares any two texts. *)
Definition total_collation (db : Database) : Prop :=
  ∀ a b, collate db a b = true ∨ collate db b a = true.

(** The creation time lies in the reporting window. *)
Definition in_window (ts : timestamptz) : Prop :=
  window_start ≤ ts ∧ ts < window_end.

(** A task of the sample lead that is assigned to no operator. *)
Definition task_unassigned : Task :=
  mkTask 7 (Some "pending") window_start 10 20 None.

Definition db_unassigned : Database := store_of 90 [task_unassigned].

(** The events on the store connection. *)
Definition is_store_event (ev : Event) : bool :=
  match ev with
  | Psycopg2Connect _ | ConnCursor | CursorExecute | CursorFetchall
  | CursorClose | ConnClose => true
  | _ => false
  end.

(** The computation raises nothing but exceptions that satisfy [P]. *)
Definition raises_only {A : Type} (P : Exn -> Prop) (m : Eff A) : Prop :=
  ∀ e, outcome m = inl e → P e.

(** The request that asks for a token. *)
Definition is_token_post (cfg : Config) (ev : Event) : Prop :=
  ∃ data,
    ev = RequestsPost ("https://login.microsoftonline.com/" +:+ TENANT_ID cfg
                       +:+ "/oauth2/v2.0/token") [] (FormData data).

(** Whatever the outside world raises is an [Exception]. *)
Definition raises_exceptions (w : World) : Prop :=
  (∀ e, connect_answer w = Some e → is_Exception e = true)
  ∧ (∀ e, execute_answer w = Some e → is_Exception e = true)
  ∧ (∀ e, token_answer w = Raises e → is_Exception e = true)
  ∧ (∀ e, mail_answer w = Raises e → is_Exception e = true).

(** A world where the store and both HTTP services answer well. *)
Definition answers_well (w : World) : Prop :=
  connect_answer w = None
  ∧ execute_answer w = None
  ∧ (∃ res tok, token_answer w = Responds res ∧ status_code res < 400
                ∧ access_token res = Some tok ∧ tok ≠ "")
  ∧ (∃ res, mail_answer w = Responds res ∧ status_code res < 400).

(** A world where the store is not reachable. *)
Definition world_unreachable : World :=
  {| store := db_jane;
     connect_answer := Some (OtherException "connection refused");
     execute_answer := None;
     token_answer := Responds (mkResponse 200 "" (Some "token") "");
     mail_answer := Responds (mkResponse 202 "" None "");
     utcnow := sample_clock |}.

(** A world where the query is interrupted by something that is not a
    [psycopg2.Error]. *)
Definition world_query_crashes : World :=
  {| store := db_jane;
     connect_answer := None;
     execute_answer := Some (OtherException "interrupted");
     token_answer := Responds (mkResponse 200 "" (Some "token") "");
     mail_answer := Responds (mkResponse 202 "" None "");
     utcnow := sample_clock |}.



(** The computation causes nothing but events that satisfy [P]. *)
Definition emits_only {A : Type} (P : Event -> Prop) (m : Eff A) : Prop :=
  Forall P (trace m).



(** A row dictionary with a count that is [None]. *)
Definition task_none_count : gmap string pyval :=
  {["apw_id" := PStr "APW-9"; "pending_75_plus" := PNone]}.


(** The variables that the module requires. *)
Definition required_variables : list string :=
  ["AZURE_TENANT_ID"; "AZURE_CLIENT_ID"; "AZURE_CLIENT_SECRET"; "DATABASE_URL"].




(** An environment whose tenant id is empty. *)
Definition env_empty_tenant : gmap string string :=
  <["AZURE_TENANT_ID" := ""]> env_complete.

(** The same store, with the rows of its tables in another order. *)
Definition permuted_store (db db' : Database) : Prop :=
  karmafy_task db ≡ₚ karmafy_task db'
  ∧ karmafy_scoredjob db ≡ₚ karmafy_scoredjob db'
  ∧ karmafy_lead db ≡ₚ karmafy_lead db'
  ∧ karmafy_opsPerson db ≡ₚ karmafy_opsPerson db'
  ∧ collate db = collate db'.

(** [db_jane] with its tasks in the reverse order. *)
Definition db_jane_reversed : Database :=
  store_of 75 [task_of 4 "Pending" (window_start + 2);
               task_of 3 "completed" (window_end - 1);
               task_of 2 "COMPLETED" (window_start + 1);
               task_of 1 "Completed" window_start].

(** The lines printed. *)
Definition is_print (ev : Event) : bool :=
  match ev with
  | Print _ => true
  | _ => false
  end.

(** The health check endpoint, [GET /]. *)
Definition health_check : gmap string json :=
  list_to_map [("status", JStr "ok");
               ("service", JStr "Job Links Threshold Notification API")].

(** * Properties *)

(** ** The aggregation query *)

(** A filter counts the elements one by one. *)
Lemma length_filter_cons {A : Type} (P : A -> Prop) `{!∀ x, Decision (P x)} x xs :
  length (filter P (x :: xs))
  = ((if decide (P x) then 1 else 0) + length (filter P xs))%nat.
Proof. rewrite filter_cons. by destruct (decide (P x)). Qed.

(** A status is recognized when it is one of the six literals. *)
Lemma recognized_iff j :
  recognized j ↔
  status_is "completed" j ∨ status_is "pending" j ∨ status_is "in_progress" j
  ∨ status_is "not_relevant" j ∨ status_is "job_not_found" j
  ∨ status_is "already_applied" j.
Proof.
  unfold recognized, status_literals.
  rewrite !Exists_cons, Exists_nil. tauto.
Qed.

(** A status text is equal to one of the six literals or to none. *)
Lemma six_literals_pointwise (x : option string) :
  ((if decide (x = Some "completed") then 1 else 0)
   + (if decide (x = Some "pending") then 1 else 0)
   + (if decide (x = Some "in_progress") then 1 else 0)
   + (if decide (x = Some "not_relevant") then 1 else 0)
   + (if decide (x = Some "job_not_found") then 1 else 0)
   + (if decide (x = Some "already_applied") then 1 else 0))%nat
  = (if decide (Exists (λ lit, x = Some lit) status_literals) then 1 else 0)%nat.
Proof.
  destruct (decide (Exists _ _)) as [H|H].
  - unfold status_literals in H. rewrite !Exists_cons, Exists_nil in H.
    destruct H as [->|[->|[->|[->|[->|[->|[]]]]]]]; reflexivity.
  - rewrite !decide_False; [done|..]; intros ->; apply H;
      unfold status_literals; rewrite !Exists_cons; tauto.
Qed.

(** On one task, exactly one of the six FILTERs holds when the task has a
    score of 75 or more and a recognized status, and none otherwise. *)
Lemma six_filters_pointwise j :
  ((if decide (filter_clause "completed" j) then 1 else 0)
   + (if decide (filter_clause "pending" j) then 1 else 0)
   + (if decide (filter_clause "in_progress" j) then 1 else 0)
   + (if decide (filter_clause "not_relevant" j) then 1 else 0)
   + (if decide (filter_clause "job_not_found" j) then 1 else 0)
   + (if decide (filter_clause "already_applied" j) then 1 else 0))%nat
  = (if decide (score_75_plus j ∧ recognized j) then 1 else 0)%nat.
Proof.
  destruct (decide (score_75_plus j)) as [Hs|Hs].
  - rewrite (decide_ext (_ ∧ recognized j)
               (Exists (λ lit, LOWER <$> t_status (j_t j) = Some lit)
                       status_literals)) by (unfold recognized; tauto).
    rewrite <- six_literals_pointwise.
    unfold filter_clause, status_is.
    repeat f_equal; apply decide_ext; tauto.
  - unfold filter_clause. rewrite !decide_False by tauto. done.
Qed.

(** The six counts of a group add up to the number of its tasks that have
    a score of 75 or more and a recognized status. *)
Lemma six_counts_sum_select k g :
  six_counts_sum (select k g)
  = Z.of_nat (length (filter (λ j, score_75_plus j ∧ recognized j) g)).
Proof.
  destruct k as [[[a e] n] m]. unfold six_counts_sum, select, count_filter.
  cbn [completed_75_plus pending_75_plus in_progress_75_plus
       not_relevant_75_plus job_not_found_75_plus already_applied_75_plus].
  rewrite <- !Nat2Z.inj_add. f_equal.
  induction g as [|j g IH]; [done|].
  rewrite !length_filter_cons, <- IH, <- six_filters_pointwise. lia.
Qed.

Lemma row_key_select k g : row_key (select k g) = k.
Proof. by destruct k as [[[a e] n] m]. Qed.

(** The rows of GROUP BY: one per key that occurs. *)
Lemma elem_of_aggregate r rows :
  r ∈ aggregate rows ↔
  ∃ k, r = select k (group_of k rows) ∧ ∃ j, j ∈ rows ∧ group_by j = k.
Proof.
  unfold aggregate. rewrite list_elem_of_fmap.
  split.
  - intros (k & -> & Hk). exists k. split; [done|].
    apply elem_of_remove_dups, list_elem_of_fmap in Hk as (j & -> & Hj). eauto.
  - intros (k & -> & j & Hj & <-). eexists. split; [done|].
    apply elem_of_remove_dups, list_elem_of_fmap. eauto.
Qed.

(** ORDER BY only permutes the rows. *)
Lemma query_Permutation db :
  query db ≡ₚ aggregate (filter where_clause (from_clause db)).
Proof. unfold query. apply merge_sort_Permutation. Qed.

Lemma elem_of_query r db :
  r ∈ query db ↔
  ∃ k, r = select k (group_of k (filter where_clause (from_clause db)))
       ∧ ∃ j, j ∈ from_clause db ∧ where_clause j ∧ group_by j = k.
Proof.
  rewrite query_Permutation, elem_of_aggregate.
  split; intros (k & Hr & j & Hj); exists k; (split; [done|]); exists j.
  - destruct Hj as [Hj Hk]. apply list_elem_of_filter in Hj. tauto.
  - rewrite list_elem_of_filter. tauto.
Qed.

(** The keys of the rows are those of the tasks created in the window,
    each once. *)
Lemma row_keys_aggregate rows :
  row_key <$> aggregate rows = remove_dups (group_by <$> rows).
Proof.
  unfold aggregate. rewrite <- list_fmap_compose.
  rewrite <- (list_fmap_id (remove_dups _)) at 2.
  apply list_fmap_ext. intros _ k _. apply row_key_select.
Qed.

(** Sums over lists. *)
Section sums.
Context {A : Type}.
Implicit Types (f g : A -> Z) (xs : list A).

Lemma sumZ_cons f x xs : sumZ f (x :: xs) = f x + sumZ f xs.
Proof. reflexivity. Qed.

Lemma sumZ_add f g xs : sumZ (λ x, f x + g x) xs = sumZ f xs + sumZ g xs.
Proof. induction xs as [|x xs IH]; [done|]. rewrite !sumZ_cons, IH. lia. Qed.

Lemma sumZ_zero xs : sumZ (λ _, 0) xs = 0.
Proof. induction xs as [|x xs IH]; [done|]. by rewrite sumZ_cons, IH. Qed.

Lemma sumZ_ext f g xs : (∀ x, x ∈ xs → f x = g x) → sumZ f xs = sumZ g xs.
Proof.
  induction xs as [|x xs IH]; intros H; [done|].
  rewrite !sumZ_cons, H, IH; [done| |left]. intros y Hy. apply H. by right.
Qed.

Lemma sumZ_fmap {B : Type} (h : B -> A) f (ys : list B) :
  sumZ f (h <$> ys) = sumZ (f ∘ h) ys.
Proof.
  induction ys as [|y ys IH]; [done|].
  rewrite fmap_cons, !sumZ_cons, IH. done.
Qed.

Lemma sumZ_Permutation f xs xs' : xs ≡ₚ xs' → sumZ f xs = sumZ f xs'.
Proof.
  induction 1 as [|x l l' _ IH|x y l|l l' l'' _ IH1 _ IH2];
    rewrite ?sumZ_cons; [done|by rewrite IH|lia|congruence].
Qed.

(** A key that occurs once in a list of keys is hit once. *)
Lemma sumZ_indicator `{EqDecision A} (k0 : A) (ks : list A) :
  NoDup ks → k0 ∈ ks →
  sumZ (λ k, if decide (k0 = k) then 1 else 0) ks = 1.
Proof.
  induction 1 as [|k ks Hk Hnd IH]; intros Hin.
  - by apply not_elem_of_nil in Hin.
  - rewrite sumZ_cons. destruct (decide (k0 = k)) as [<-|Hne].
    + rewrite (sumZ_ext _ (λ _, 0)), sumZ_zero; [done|].
      intros k' Hk'. apply decide_False. by intros <-.
    + apply elem_of_cons in Hin as [?|Hin]; [done|]. by rewrite IH.
Qed.
End sums.

(** Grouping partitions a list: the sizes of the groups of the keys add up
    to the length of the list. *)
Lemma sumZ_groups {A K : Type} `{EqDecision K} (f : A -> K) (ks : list K)
    (xs : list A) :
  NoDup ks → (∀ x, x ∈ xs → f x ∈ ks) →
  sumZ (λ k, Z.of_nat (length (filter (λ x, f x = k) xs))) ks
  = Z.of_nat (length xs).
Proof.
  intros Hnd. induction xs as [|x xs IH]; intros Hin.
  - apply sumZ_zero.
  - rewrite (sumZ_ext _ (λ k, (if decide (f x = k) then 1 else 0)
                              + Z.of_nat (length (filter (λ y, f y = k) xs)))).
    + rewrite sumZ_add, IH, sumZ_indicator; [cbn [length]; lia|done| |].
      * apply Hin. left.
      * intros y Hy. apply Hin. by right.
    + intros k _. rewrite length_filter_cons. case_decide; lia.
Qed.

(** All the counts of GROUP BY add up to the number of tasks that have a
    score of 75 or more and a recognized status. *)
Lemma grand_total_aggregate rows :
  grand_total (aggregate rows)
  = Z.of_nat (length (filter (λ j, score_75_plus j ∧ recognized j) rows)).
Proof.
  unfold grand_total, aggregate. rewrite sumZ_fmap.
  rewrite <- (sumZ_groups group_by (remove_dups (group_by <$> rows))).
  - apply sumZ_ext. intros k _. unfold compose.
    rewrite six_counts_sum_select. unfold group_of.
    rewrite !list_filter_filter. do 2 f_equal. apply list_filter_iff. tauto.
  - apply NoDup_remove_dups.
  - intros j [_ Hj]%list_elem_of_filter.
    apply elem_of_remove_dups, list_elem_of_fmap. eauto.
Qed.

(** ** Tasks and joined rows *)

(** A condition that no row meets selects nothing. *)
Lemma filter_none {A : Type} (P : A -> Prop) `{!∀ x, Decision (P x)}
    (xs : list A) :
  (∀ x, x ∈ xs → ¬ P x) → filter P xs = [].
Proof.
  induction xs as [|x xs IH]; intros Hno; [done|].
  rewrite filter_cons, decide_False by (apply Hno; left).
  apply IH. intros y Hy. apply Hno. by right.
Qed.

(** A unique key selects at most one row. *)
Lemma filter_key_length {A : Type} (f : A -> Z) (P : A -> Prop)
    `{!∀ x, Decision (P x)} (k : Z) (xs : list A) :
  NoDup (f <$> xs) → (∀ x, P x → f x = k) →
  (length (filter P xs) ≤ 1)%nat.
Proof.
  intros Hnd HP. induction xs as [|x xs IH]; [cbn; lia|].
  rewrite fmap_cons in Hnd. apply NoDup_cons in Hnd as [Hx Hnd].
  rewrite filter_cons. destruct (decide (P x)) as [Hpx|_]; [|by apply IH].
  assert (Hnil : filter P xs = []).
  { apply filter_none. intros y Hy Hpy. apply Hx.
    rewrite (HP x Hpx), <- (HP y Hpy). apply list_elem_of_fmap. eauto. }
  rewrite Hnil. cbn. lia.
Qed.

(** A key that occurs selects a row. *)
Lemma filter_key_nonempty {A : Type} (P : A -> Prop)
    `{!∀ x, Decision (P x)} (xs : list A) :
  (∃ x, x ∈ xs ∧ P x) → filter P xs ≠ [].
Proof.
  intros (x & Hx & HP) Hnil.
  assert (Hin : x ∈ filter P xs) by (apply list_elem_of_filter; done).
  rewrite Hnil in Hin. by apply not_elem_of_nil in Hin.
Qed.

(** In a well-keyed store the FROM clause has exactly one row per task, in
    the order of the tasks: the joins neither drop nor repeat a task. *)
Lemma from_clause_one_row_per_task db :
  well_keyed db → j_t <$> from_clause db = karmafy_task db.
Proof.
  intros (Hsj & Hl & Hop & Href). unfold from_clause.
  induction (karmafy_task db) as [|t0 ts IH]; [done|].
  rewrite bind_cons, fmap_app, IH. 2:{ intros t1 Ht1. apply Href. by right. }
  change (t0 :: ts) with ([t0] ++ ts). f_equal.
  destruct (Href t0) as [Hs Hx]; [left|].
  assert (H1 := filter_key_length sj_id (λ s, sj_id s = t_scored_jobId t0)
                  (t_scored_jobId t0) _ Hsj (λ _ H, H)).
  assert (H1' := filter_key_nonempty (λ s, sj_id s = t_scored_jobId t0) _ Hs).
  assert (H2 := filter_key_length l_id (λ x, l_id x = t_leadId t0)
                  (t_leadId t0) _ Hl (λ _ H, H)).
  assert (H2' := filter_key_nonempty (λ x, l_id x = t_leadId t0) _ Hx).
  destruct (filter _ (karmafy_scoredjob db)) as [|s0 [|]]; [done| |cbn in H1; lia].
  destruct (filter _ (karmafy_lead db)) as [|x0 [|]]; [done| |cbn in H2; lia].
  destruct (t_ops_personId t0) as [u|].
  - assert (H3 := filter_key_length op_user_id (λ o, Some (op_user_id o) = Some u)
                    u _ Hop (λ _ H, Some_inj _ _ H)).
    destruct (filter _ (karmafy_opsPerson db)) as [|o0 [|]];
      [done|done|cbn in H3; lia].
  - destruct (filter _ (karmafy_opsPerson db)) as [|o0 os] eqn:E; [done|].
    assert (Hin : o0 ∈ o0 :: os) by left.
    rewrite <- E in Hin. by apply list_elem_of_filter in Hin as [Hin _].
Qed.

(** The sample stores are well keyed. *)
Lemma well_keyed_store_of score tasks :
  Forall (λ t0, t_scored_jobId t0 = 10 ∧ t_leadId t0 = 20) tasks →
  well_keyed (store_of score tasks).
Proof.
  intros Htasks. unfold well_keyed, store_of. cbn.
  split; [apply NoDup_singleton|]. split; [apply NoDup_singleton|].
  split; [apply NoDup_singleton|].
  intros t0 Ht0. rewrite Forall_forall in Htasks.
  destruct (Htasks t0 Ht0) as [-> ->].
  split; eexists; (split; [left|done]).
Qed.

(** What the query answers on the sample stores. *)
Lemma query_db_jane : query db_jane = [row_jane].
Proof. reflexivity. Qed.

Lemma query_db_unrecognized : query db_unrecognized = [row_zero].
Proof. reflexivity. Qed.

Lemma query_db_low_score : query db_low_score = [row_zero].
Proof. reflexivity. Qed.

(** C1, as stated, fails: the pair of [db_unrecognized] has one eligible
    task, whose status is none of the six, and the counts of its row add up
    to zero. *)
Lemma count_consistency_counterexample :
  ¬ (∀ r, r ∈ query db_unrecognized →
          six_counts_sum r = tasks_of db_unrecognized eligible (row_key r)).
Proof.
  intros H. specialize (H row_zero).
  rewrite query_db_unrecognized in H.
  specialize (H (list_elem_of_here _ _)).
  vm_compute in H. discriminate H.
Qed.

(** C1, amended: on every store, the six counts of a result row add up to
    the number of tasks of the row's (lead, operator) pair that were created
    in the window, have a score of 75 or more and have a status that is, up
    to case, one of the six recognized ones. *)
Theorem count_consistency_recognized db r :
  r ∈ query db →
  six_counts_sum r
  = tasks_of db (λ j, eligible j ∧ recognized j) (row_key r).
Proof.
  intros (k & -> & _)%elem_of_query.
  rewrite six_counts_sum_select, row_key_select.
  unfold tasks_of, group_of, eligible. rewrite !list_filter_filter.
  do 2 f_equal. apply list_filter_iff. tauto.
Qed.

(** On [db_jane]: three completed tasks and a pending one add up to 4. *)
Lemma count_consistency_recognized_witness :
  row_jane ∈ query db_jane ∧
  six_counts_sum row_jane
  = tasks_of db_jane (λ j, eligible j ∧ recognized j) (row_key row_jane).
Proof.
  assert (H : row_jane ∈ query db_jane).
  { rewrite query_db_jane. apply list_elem_of_here. }
  split; [exact H|]. exact (count_consistency_recognized db_jane row_jane H).
Defined.

(** C2, as stated, fails: in [db_low_score] the only task of the pair has a
    score below 75, so the pair has no eligible task, and the query still
    answers a row for it. *)
Lemma one_row_per_eligible_pair_counterexample :
  ¬ (NoDup (row_key <$> query db_low_score) ∧
     ∀ k, k ∈ row_key <$> query db_low_score ↔
          ∃ j, j ∈ from_clause db_low_score ∧ eligible j ∧ group_by j = k).
Proof.
  intros [_ H]. destruct (H key_jane) as [H1 _].
  destruct H1 as (j & Hj & [_ Hs] & _).
  { rewrite query_db_low_score. apply list_elem_of_here. }
  change (from_clause db_low_score)
    with [joined_of "completed" window_start 10] in Hj.
  apply list_elem_of_singleton in Hj as ->.
  destruct Hs as (s & Hs & Hle). cbn in Hs. injection Hs as <-. lia.
Qed.

(** C2, amended: on every store, the query answers exactly one row per
    distinct (lead, operator) pair, as the grouping columns identify it,
    among the tasks created in the window, whatever their score, and no row
    for a pair without a task created in the window. *)
Theorem one_row_per_pair_in_window db :
  NoDup (row_key <$> query db) ∧
  ∀ k, k ∈ row_key <$> query db ↔
       ∃ j, j ∈ from_clause db ∧ where_clause j ∧ group_by j = k.
Proof.
  assert (Hp : row_key <$> query db
               ≡ₚ remove_dups (group_by <$> filter where_clause (from_clause db))).
  { by rewrite query_Permutation, row_keys_aggregate. }
  split.
  - rewrite Hp. apply NoDup_remove_dups.
  - intros k. rewrite Hp, elem_of_remove_dups, list_elem_of_fmap.
    setoid_rewrite list_elem_of_filter.
    split; [intros (j & -> & ? & ?)|intros (j & ? & ? & <-)]; eauto.
Qed.

(** A task is counted exactly when it passes the WHERE clause and has a
    score of 75 or more and a recognized status. *)
Lemma counted_iff j :
  counted j ↔ where_clause j ∧ score_75_plus j ∧ recognized j.
Proof.
  unfold counted, counted_in, recognized, filter_clause.
  rewrite !Exists_exists. split.
  - intros (lit & Hlit & Hw & Hs & Hst). eauto 6.
  - intros (Hw & Hs & lit & Hlit & Hst). eauto 6.
Qed.

(** All the counts of the result add up to the number of counted tasks. *)
Lemma grand_total_query db :
  grand_total (query db) = Z.of_nat (length (filter counted (from_clause db))).
Proof.
  unfold grand_total. rewrite (sumZ_Permutation _ _ _ (query_Permutation db)).
  fold (grand_total (aggregate (filter where_clause (from_clause db)))).
  rewrite grand_total_aggregate, list_filter_filter.
  do 2 f_equal. apply list_filter_iff. intros j. rewrite counted_iff. tauto.
Qed.

(** C3, as stated, fails: a task created at the start of the window with a
    score of 80 and the status [archived] is in the window and has a score
    of 75 or more, and no counter counts it. *)
Lemma counted_iff_eligible_counterexample :
  ¬ (∀ j, counted j ↔
          (window_start ≤ t_createdAt (j_t j) ∧ t_createdAt (j_t j) < window_end)
          ∧ ∃ s, sj_score (j_sj j) = Some s ∧ 75 ≤ s).
Proof.
  intros H.
  destruct (H (joined_of "archived" window_start 80)) as [_ H2].
  assert (Hc : counted (joined_of "archived" window_start 80)).
  { apply H2. split; [vm_compute; split; congruence|].
    exists 80. split; [reflexivity|lia]. }
  revert Hc. apply (bool_decide_eq_false_1 (counted _)). reflexivity.
Qed.

(** C3, amended: every counter counts one for each task it counts, and a
    task is counted in some counter if and only if it was created in the
    half-open window, its score is 75 or more and its status is, up to
    case, one of the six recognized ones.  Among the tasks with a recognized
    status, one created exactly at the start of the window is counted and
    one created exactly at its end is not, one with a score of exactly 75
    is counted and one with a score of 74 is not. *)
Theorem counted_iff_window_score_status :
  (∀ db, grand_total (query db)
         = Z.of_nat (length (filter counted (from_clause db))))
  ∧ (∀ j, counted j ↔
          (window_start ≤ t_createdAt (j_t j) ∧ t_createdAt (j_t j) < window_end)
          ∧ (∃ s, sj_score (j_sj j) = Some s ∧ 75 ≤ s)
          ∧ recognized j)
  ∧ (∀ j, t_createdAt (j_t j) = window_start →
          score_75_plus j → recognized j → counted j)
  ∧ (∀ j, t_createdAt (j_t j) = window_end → ¬ counted j)
  ∧ (∀ j, sj_score (j_sj j) = Some 75 →
          where_clause j → recognized j → counted j)
  ∧ (∀ j, sj_score (j_sj j) = Some 74 → ¬ counted j).
Proof.
  split; [exact grand_total_query|].
  split; [exact counted_iff|].
  repeat split.
  - intros j Ht Hs Hr. apply counted_iff. split; [|done].
    unfold where_clause. rewrite Ht. split; [reflexivity|reflexivity].
  - intros j Ht (Hw & _)%counted_iff. destruct Hw as [_ Hw].
    rewrite Ht in Hw. lia.
  - intros j Hs Hw Hr. apply counted_iff. split; [done|]. split; [|done].
    exists 75. split; [done|lia].
  - intros j Hs (_ & (s & Hs' & Hle) & _)%counted_iff.
    rewrite Hs in Hs'. injection Hs' as <-. lia.
Qed.

(** The four boundaries, on tasks of the sample pair, and the grand total of
    [db_jane]. *)
Lemma counted_iff_window_score_status_witness :
  counted (joined_of "Completed" window_start 80)
  ∧ ¬ counted (joined_of "Completed" window_end 80)
  ∧ counted (joined_of "Completed" (window_start + 1) 75)
  ∧ ¬ counted (joined_of "Completed" (window_start + 1) 74)
  ∧ grand_total (query db_jane) = 4.
Proof.
  destruct counted_iff_window_score_status
    as (Htotal & _ & Hstart & Hend & H75 & H74).
  split; [|split; [|split; [|split]]].
  - apply Hstart; [reflexivity| |].
    + exists 80. split; [reflexivity|lia].
    + apply (bool_decide_eq_true_1 (recognized _)). reflexivity.
  - apply Hend. reflexivity.
  - apply H75; [reflexivity| |].
    + apply (bool_decide_eq_true_1 (where_clause _)). reflexivity.
    + apply (bool_decide_eq_true_1 (recognized _)). reflexivity.
  - apply H74. reflexivity.
  - rewrite Htotal. reflexivity.
Defined.

(** ** Case of the statuses *)

Lemma lower_ascii_idemp c : lower_ascii (lower_ascii c) = lower_ascii c.
Proof. by destruct c as [[] [] [] [] [] [] [] []]. Qed.

Lemma lower_upper_ascii c : lower_ascii (upper_ascii c) = lower_ascii c.
Proof. by destruct c as [[] [] [] [] [] [] [] []]. Qed.

Lemma LOWER_idemp s : LOWER (LOWER s) = LOWER s.
Proof. induction s as [|c s IH]; [done|]. cbn. by rewrite lower_ascii_idemp, IH. Qed.

(** Changing the case of letters does not change [LOWER]. *)
Lemma recased_LOWER s s' : recased s s' → LOWER s = LOWER s'.
Proof.
  induction 1 as [|c s s' _ IH|c s s' _ IH|c s s' _ IH]; cbn;
    rewrite ?lower_ascii_idemp, ?lower_upper_ascii, ?IH; done.
Qed.

Lemma recased_lower_task t t' : recased_task t t' → lower_task t = lower_task t'.
Proof.
  destruct t, t'. unfold recased_task, lower_task. cbn.
  intros (Hst & -> & -> & -> & -> & ->). f_equal.
  destruct Hst as [s s' Hs|]; cbn; [|done]. by rewrite (recased_LOWER s s').
Qed.

Lemma recased_lower_store db db' :
  recased_store db db' → lower_store db = lower_store db'.
Proof.
  destruct db, db'. unfold recased_store, lower_store. cbn.
  intros (Ht & -> & -> & -> & ->). f_equal.
  induction Ht as [|t t' ts ts' Ht _ IH]; [done|].
  cbn. by rewrite (recased_lower_task t t'), IH.
Qed.

Lemma fmap_bind {A B C : Type} (f : B -> C) (g : A -> list B) (xs : list A) :
  f <$> (xs ≫= g) = xs ≫= (λ x, f <$> g x).
Proof.
  induction xs as [|x xs IH]; [done|].
  by rewrite !bind_cons, fmap_app, IH.
Qed.

Lemma filter_fmap {A B : Type} (f : A -> B) (P : B -> Prop)
    `{!∀ y, Decision (P y)} (xs : list A) :
  filter P (f <$> xs) = f <$> filter (λ x, P (f x)) xs.
Proof.
  induction xs as [|x xs IH]; [done|].
  rewrite fmap_cons, !filter_cons, IH. by destruct (decide (P (f x))).
Qed.

(** The FROM clause of the store in lower case. *)
Lemma from_clause_lower_store db :
  from_clause (lower_store db) = lower_joined <$> from_clause db.
Proof.
  unfold from_clause, lower_store. cbn.
  rewrite list_fmap_bind, fmap_bind. apply list_bind_ext; [|done].
  intros t0. unfold compose. cbn.
  rewrite fmap_bind. apply list_bind_ext; [|done]. intros sj0.
  rewrite fmap_bind. apply list_bind_ext; [|done]. intros l0.
  rewrite fmap_bind. apply list_bind_ext; [|done]. intros op0. done.
Qed.

Lemma filter_clause_lower_joined lit j :
  filter_clause lit (lower_joined j) ↔ filter_clause lit j.
Proof.
  unfold filter_clause, status_is, score_75_plus. cbn.
  destruct (t_status (j_t j)) as [s|]; cbn; [|done]. by rewrite LOWER_idemp.
Qed.

Lemma count_filter_lower_joined lit g :
  count_filter lit (lower_joined <$> g) = count_filter lit g.
Proof.
  unfold count_filter. rewrite filter_fmap, length_fmap. do 2 f_equal.
  apply list_filter_iff, filter_clause_lower_joined.
Qed.

Lemma aggregate_lower_joined rows :
  aggregate (lower_joined <$> rows) = aggregate rows.
Proof.
  unfold aggregate. rewrite <- list_fmap_compose.
  apply list_fmap_ext. intros _ k _.
  unfold group_of. rewrite filter_fmap.
  destruct k as [[[a e] n] m]. unfold select.
  by rewrite !count_filter_lower_joined.
Qed.

(** The query does not see the case of the statuses. *)
Lemma query_lower_store db : query (lower_store db) = query db.
Proof.
  unfold query. rewrite from_clause_lower_store, filter_fmap.
  by rewrite aggregate_lower_joined.
Qed.

(** C7: the comparison of the status is case-insensitive.  Two stores that
    differ only in the case of the letters of the statuses of their tasks
    have the same result: every task increments the same counter whatever
    the case of its status. *)
Theorem query_case_insensitive db db' :
  recased_store db db' → query db = query db'.
Proof.
  intros H%recased_lower_store.
  by rewrite <- (query_lower_store db), H, query_lower_store.
Qed.

(** Decides [recased] on two given texts, letter by letter. *)
Ltac recase :=
  repeat lazymatch goal with
  | |- recased EmptyString EmptyString => apply recased_empty
  | |- recased (String ?c _) (String ?c _) => apply (recased_keep c)
  | |- recased (String ?c _) (String _ _) =>
      first [apply (recased_lower c) | apply (recased_upper c)]
  end.

Lemma recased_store_db_jane : recased_store db_jane db_jane_recased.
Proof.
  unfold recased_store, db_jane, db_jane_recased, store_of. cbn.
  split; [|done].
  repeat (constructor;
          [unfold recased_task, task_of; cbn;
           split; [apply Some_Forall2; recase|done]|]).
  constructor.
Qed.

(** [db_jane] and its recased copy have the same result. *)
Lemma query_case_insensitive_witness :
  recased_store db_jane db_jane_recased
  ∧ query db_jane = query db_jane_recased.
Proof.
  split; [exact recased_store_db_jane|].
  exact (query_case_insensitive db_jane db_jane_recased recased_store_db_jane).
Defined.

(** ** The store connection *)

(** What [get_task_status_summary] does when the store answers. *)
Lemma get_task_status_summary_ok cfg w :
  connect_answer w = None → execute_answer w = None →
  get_task_status_summary cfg w
  = mkEff [Psycopg2Connect (DATABASE_URL cfg); ConnCursor; CursorExecute;
           CursorFetchall; CursorClose; ConnClose]
          (inr (dict <$> query (store w))).
Proof.
  intros Hc He. unfold get_task_status_summary, get_db_connection.
  rewrite Hc, He. reflexivity.
Qed.

(** It returns rows only when they are the rows of the query. *)
Lemma get_task_status_summary_returns cfg w rows :
  outcome (get_task_status_summary cfg w) = inr rows →
  rows = dict <$> query (store w).
Proof.
  unfold get_task_status_summary, get_db_connection.
  destruct (connect_answer w) as [[]|], (execute_answer w) as [[]|];
    cbn; congruence.
Qed.

(** It posts nothing. *)
Lemma get_task_status_summary_no_post cfg w :
  count is_post (trace (get_task_status_summary cfg w)) = 0%nat.
Proof.
  unfold get_task_status_summary, get_db_connection.
  destruct (connect_answer w) as [[]|], (execute_answer w) as [[]|];
    reflexivity.
Qed.

(** C9: on every exit of [get_task_status_summary] on which the connection
    was acquired - the normal return, the failure of the query and any
    other exception - the connection has executed exactly one query and has
    been closed exactly once, and the close is the last thing that happens
    before control returns to the caller. *)
Theorem connection_closed_after_one_query cfg w :
  connect_answer w = None →
  count is_execute (trace (get_task_status_summary cfg w)) = 1%nat
  ∧ count is_conn_close (trace (get_task_status_summary cfg w)) = 1%nat
  ∧ last (trace (get_task_status_summary cfg w)) = Some ConnClose.
Proof.
  intros Hc. unfold get_task_status_summary, get_db_connection. rewrite Hc.
  destruct (execute_answer w) as [[]|]; repeat split; reflexivity.
Qed.

(** A run whose query fails: the connection is still closed, last. *)
Lemma connection_closed_after_one_query_witness :
  connect_answer world_query_fails = None
  ∧ outcome (get_task_status_summary sample_config world_query_fails)
    = inl (HTTPException 500 "Database query failed")
  ∧ count is_execute
      (trace (get_task_status_summary sample_config world_query_fails)) = 1%nat
  ∧ count is_conn_close
      (trace (get_task_status_summary sample_config world_query_fails)) = 1%nat
  ∧ last (trace (get_task_status_summary sample_config world_query_fails))
    = Some ConnClose.
Proof.
  split; [reflexivity|]. split; [reflexivity|].
  exact (connection_closed_after_one_query sample_config world_query_fails
           eq_refl).
Defined.

(** ** The report endpoint *)

(** A sequence that returns: so did its first step. *)
Lemma bind_outcome_inr {A B : Type} (m : Eff A) (f : A -> Eff B) b :
  outcome (m ≫= f) = inr b →
  ∃ a, outcome m = inr a ∧ outcome (f a) = inr b.
Proof.
  unfold mbind, Eff_bind. destruct (outcome m) as [e|a]; cbn; [done|]. eauto.
Qed.



(** C4, as stated, fails: on a store without tasks the endpoint returns
    normally, and the object it returns has no [tasks_data] field. *)
Lemma six_fields_counterexample :
  ¬ (∀ d, outcome (send_task_status_report sample_config (world_of db_empty))
          = inr d → has_six_fields d).
Proof.
  intros H.
  destruct (H _ eq_refl) as (_ & _ & _ & [rows Hrows] & _).
  vm_compute in Hrows. discriminate Hrows.
Qed.

(** C4, amended: every object that the endpoint returns has the fields
    [success] (a boolean), [message] (a string) and [email_sent] (a
    boolean).  When the aggregation result is not empty, [email_sent] is
    true and the object also has [task_combinations_count] (the number of
    rows), [tasks_data] (the rows) and [email_sent_to] (the recipient); when
    it is empty, [email_sent] is false and the object has neither
    [tasks_data] nor [email_sent_to]. *)
Theorem report_fields cfg w d :
  outcome (send_task_status_report cfg w) = inr d →
  (∃ b, d !! "success" = Some (JBool b))
  ∧ (∃ s, d !! "message" = Some (JStr s))
  ∧ (∃ b, d !! "email_sent" = Some (JBool b))
  ∧ ∃ rows,
      outcome (get_task_status_summary cfg w) = inr rows
      ∧ ((rows ≠ []
          ∧ d !! "email_sent" = Some (JBool true)
          ∧ d !! "task_combinations_count"
            = Some (JInt (Z.of_nat (length rows)))
          ∧ d !! "tasks_data" = Some (JRows rows)
          ∧ d !! "email_sent_to" = Some (JStr TEST_EMAIL_RECIPIENT))
         ∨ (rows = []
            ∧ d !! "email_sent" = Some (JBool false)
            ∧ d !! "tasks_data" = None
            ∧ d !! "email_sent_to" = None)).
Proof.
  unfold send_task_status_report.
  intros (rows & Hrows & H)%bind_outcome_inr.
  destruct rows as [|row rows].
  - cbn in H. injection H as <-.
    split; [by eexists|]. split; [by eexists|]. split; [by eexists|].
    exists []. split; [done|]. right. done.
  - repeat apply bind_outcome_inr in H as (? & _ & H).
    cbn in H. injection H as <-.
    split; [by eexists|]. split; [by eexists|]. split; [by eexists|].
    exists (row :: rows). split; [done|]. left. done.
Qed.

(** The response of a run on [db_jane]. *)
Lemma report_fields_witness :
  outcome (send_task_status_report sample_config (world_of db_jane))
  = inr response_jane
  ∧ (∃ b, response_jane !! "success" = Some (JBool b))
  ∧ (∃ s, response_jane !! "message" = Some (JStr s))
  ∧ (∃ b, response_jane !! "email_sent" = Some (JBool b)).
Proof.
  assert (H : outcome (send_task_status_report sample_config (world_of db_jane))
              = inr response_jane) by (vm_compute; reflexivity).
  split; [exact H|].
  destruct (report_fields sample_config (world_of db_jane) response_jane H)
    as (Hsuccess & Hmessage & Hsent & _).
  split; [exact Hsuccess|]. split; [exact Hmessage|exact Hsent].
Defined.

(** ** Configuration *)

(** An absent variable is not truthy. *)
Lemma module_level_raises env :
  env !! "AZURE_TENANT_ID" = None ∨ env !! "AZURE_CLIENT_ID" = None
  ∨ env !! "AZURE_CLIENT_SECRET" = None ∨ env !! "DATABASE_URL" = None →
  ∃ msg, module_level env = mkEff [] (inl (ValueError msg)).
Proof.
  intros H. unfold module_level.
  destruct (forallb env_truthy _) eqn:Hall; cbn [negb].
  - destruct (env_truthy (env !! "DATABASE_URL")) eqn:Hdb; cbn [negb].
    + exfalso. cbn in Hall. rewrite !andb_true_iff in Hall.
      destruct Hall as (Ht & Hc & Hs & _).
      destruct H as [H|[H|[H|H]]]; rewrite H in *; discriminate.
    + by eexists.
  - by eexists.
Qed.

(** C8: when the tenant id, the client id, the client secret or the store
    connection string is absent from the environment, the module raises
    [ValueError] before it has done anything to the outside world: run as a
    script or imported by the server, the process stops with that error
    and an empty trace, so that there was no store call, no HTTP request
    and no report. *)
Theorem missing_configuration_is_fatal env w :
  env !! "AZURE_TENANT_ID" = None ∨ env !! "AZURE_CLIENT_ID" = None
  ∨ env !! "AZURE_CLIENT_SECRET" = None ∨ env !! "DATABASE_URL" = None →
  ∃ msg,
    module_level env = mkEff [] (inl (ValueError msg))
    ∧ main env w = mkEff [] (inl (ValueError msg))
    ∧ endpoint env w = mkEff [] (inl (ValueError msg)).
Proof.
  intros (msg & H)%module_level_raises. exists msg.
  unfold main, endpoint. rewrite H. done.
Qed.

(** A run without [DATABASE_URL]. *)
Lemma missing_configuration_is_fatal_witness :
  env_no_database !! "DATABASE_URL" = None
  ∧ ∃ msg,
      module_level env_no_database = mkEff [] (inl (ValueError msg))
      ∧ main env_no_database (world_of db_jane)
        = mkEff [] (inl (ValueError msg))
      ∧ endpoint env_no_database (world_of db_jane)
        = mkEff [] (inl (ValueError msg)).
Proof.
  split; [reflexivity|].
  apply (missing_configuration_is_fatal env_no_database (world_of db_jane)).
  right. right. right. reflexivity.
Defined.

(** ** Rendering *)

Lemma append_assoc (s1 s2 s3 : string) :
  (s1 +:+ s2) +:+ s3 = s1 +:+ (s2 +:+ s3).
Proof.
  induction s1 as [|c s1 IH]; [done|].
  change (String c ((s1 +:+ s2) +:+ s3) = String c (s1 +:+ (s2 +:+ s3))).
  by rewrite IH.
Qed.

Lemma append_empty_r (s : string) : s +:+ "" = s.
Proof.
  induction s as [|c s IH]; [done|].
  change (String c (s +:+ "") = String c s). by rewrite IH.
Qed.

(** The row of the template for a row of the query. *)
Lemma render_row_dict idx r :
  render_row idx (dict r) = mkEff [] (inr (displayed_row idx r)).
Proof. reflexivity. Qed.

(** The loop appends the rows of the template in order. *)
Lemma render_rows_dict rows : ∀ idx task_rows,
  render_rows idx (dict <$> rows) task_rows
  = mkEff [] (inr (task_rows
                   +:+ join (imap (λ i r, displayed_row (idx + Z.of_nat i) r)
                                  rows))).
Proof.
  induction rows as [|r rows IH]; intros idx task_rows.
  - cbn. by rewrite append_empty_r.
  - rewrite fmap_cons. cbn [render_rows]. rewrite render_row_dict.
    unfold mbind at 1, Eff_bind at 1. cbn [outcome trace app].
    rewrite IH. cbn [outcome trace]. f_equal. f_equal.
    rewrite imap_cons. cbn [join foldr]. fold (join).
    rewrite append_assoc, Z.add_0_r. do 3 f_equal.
    apply imap_ext. intros i r' _. unfold compose. f_equal. lia.
Qed.


Lemma ret_bind {A B : Type} (a : A) (f : A -> Eff B) : mret a ≫= f = f a.
Proof. unfold mbind, mret, Eff_bind, Eff_ret. cbn. by destruct (f a). Qed.







(** The cells of a row of the query whose text columns are all NULL. *)
Lemma render_row_null :
  render_row 1 (dict row_null)
  = mret (task_row_html "1" "N/A" "None" "N/A" "N/A" "2" "0" "0" "0" "0" "0" "2").
Proof. reflexivity. Qed.

(** The cells of a row without any key. *)
Lemma render_row_missing :
  render_row 1 ∅
  = mret (task_row_html "1" "N/A" "N/A" "N/A" "N/A" "0" "0" "0" "0" "0" "0" "0").
Proof. reflexivity. Qed.

(** ** Sample runs *)

(** A complete environment is accepted. *)
Lemma module_level_env_complete :
  module_level env_complete
  = mret (mkConfig "tenant" "client" "secret" "support@applywizz.com"
                   "postgresql://store/karmafy" []).
Proof. vm_compute. reflexivity. Qed.

(** The store and HTTP events of a run that sends the report. *)
Lemma events_of_a_sent_report :
  count is_execute
    (trace (send_task_status_report sample_config (world_of db_jane))) = 1%nat
  ∧ count is_post
      (trace (send_task_status_report sample_config (world_of db_jane))) = 2%nat.
Proof. vm_compute. done. Qed.

(** A run on a store whose only task in the window has a score below 75:
    the aggregation is not empty, and the report is sent. *)
Lemma events_of_a_low_score_store :
  count is_post
    (trace (send_task_status_report sample_config (world_of db_low_score)))
  = 2%nat.
Proof. vm_compute. done. Qed.

(** A run whose query fails sends nothing. *)
Lemma events_of_a_failed_query :
  outcome (send_task_status_report sample_config world_query_fails)
  = inl (HTTPException 500 "Database query failed")
  ∧ count is_post
      (trace (send_task_status_report sample_config world_query_fails)) = 0%nat.
Proof. vm_compute. done. Qed.

(** * Further properties *)

(** ** The result set of the query *)

(** In a sorted list, a property that the order hands on holds from its
    first occurrence on. *)
Lemma Sorted_hands_on {A : Type} (R : relation A) (P : A -> Prop) (xs : list A) :
  (∀ x y, R x y → P x → P y) → Sorted R xs →
  ∀ i j x y, (i ≤ j)%nat → xs !! i = Some x → xs !! j = Some y → P x → P y.
Proof.
  intros HR Hs. induction Hs as [|a xs Hs IH Hhd]; intros i j x y Hij Hi Hj Hx.
  - by rewrite lookup_nil in Hi.
  - destruct i as [|i].
    + cbn in Hi. injection Hi as ->. clear Hij.
      revert y Hj. induction j as [|j IHj]; intros y Hj.
      * cbn in Hj. by injection Hj as ->.
      * cbn in Hj. destruct xs as [|b xs]; [by destruct j|].
        apply HdRel_inv in Hhd.
        apply (IH 0%nat j b y); [lia|done|done|]. by apply (HR x b).
    + destruct j as [|j]; [lia|]. cbn in Hi, Hj.
      apply (IH i j x y); [lia|done..].
Qed.

(** X1: with a collation that compares any two names, the rows come in
    ascending order of the operator name, and the rows without operator
    name come last. *)
Theorem query_sorted_by_operator db :
  total_collation db →
  Sorted (order_by (collate db)) (query db)
  ∧ ∀ i j r1 r2, (i ≤ j)%nat →
      query db !! i = Some r1 → query db !! j = Some r2 →
      ca_name r1 = None → ca_name r2 = None.
Proof.
  intros Htot.
  assert (Total (order_by (collate db))) as Htotal.
  { intros r1 r2. unfold order_by.
    destruct (ca_name r1) as [a|]; destruct (ca_name r2) as [b|]; auto. }
  assert (Hs : Sorted (order_by (collate db)) (query db)).
  { unfold query. by apply Sorted_merge_sort. }
  split; [exact Hs|].
  apply (Sorted_hands_on (order_by (collate db)) (λ r, ca_name r = None)); [|done].
  intros r1 r2. unfold order_by. intros Hr H1. rewrite H1 in Hr.
  by destruct (ca_name r2).
Qed.

Lemma total_collation_store_of score tasks : total_collation (store_of score tasks).
Proof. intros a b. apply String.leb_total. Qed.

(** The rows of [db_jane] are in order. *)
Lemma query_sorted_by_operator_witness :
  total_collation db_jane
  ∧ Sorted (order_by (collate db_jane)) (query db_jane).
Proof.
  split; [exact (total_collation_store_of 75 _)|].
  exact (proj1 (query_sorted_by_operator db_jane (total_collation_store_of 75 _))).
Defined.

(** The counts of the SELECT list are not negative. *)
Lemma select_counts_nonneg k g :
  0 ≤ completed_75_plus (select k g) ∧ 0 ≤ pending_75_plus (select k g)
  ∧ 0 ≤ in_progress_75_plus (select k g)
  ∧ 0 ≤ not_relevant_75_plus (select k g)
  ∧ 0 ≤ job_not_found_75_plus (select k g)
  ∧ 0 ≤ already_applied_75_plus (select k g).
Proof.
  destruct k as [[[a e] n] m]. unfold select, count_filter. cbn.
  repeat split; apply Nat2Z.is_nonneg.
Qed.

(** X2: every dictionary that [get_task_status_summary] returns has exactly
    the ten keys of the SELECT list; its six counts are integers that are
    not negative, and its four text values are strings or [None]. *)
Theorem summary_rows_shape cfg w rows d :
  outcome (get_task_status_summary cfg w) = inr rows → d ∈ rows →
  dom d = list_to_set (text_columns ++ count_columns)
  ∧ (∀ key, key ∈ count_columns → ∃ n, d !! key = Some (PInt n) ∧ 0 ≤ n)
  ∧ (∀ key, key ∈ text_columns →
       d !! key = Some PNone ∨ ∃ s, d !! key = Some (PStr s)).
Proof.
  intros ->%get_task_status_summary_returns Hd.
  apply list_elem_of_fmap in Hd as (r & -> & Hr).
  apply elem_of_query in Hr as (k & -> & _).
  destruct (select_counts_nonneg k
              (group_of k (filter where_clause (from_clause (store w)))))
    as (H1 & H2 & H3 & H4 & H5 & H6).
  split; [|split].
  - unfold dict. by rewrite dom_list_to_map_L.
  - intros key Hkey. unfold count_columns in Hkey.
    repeat (apply elem_of_cons in Hkey as [->|Hkey]; [eexists; split; [reflexivity|done]|]).
    by apply not_elem_of_nil in Hkey.
  - intros key Hkey. unfold text_columns in Hkey.
    destruct k as [[[a e] n] m].
    repeat (apply elem_of_cons in Hkey as [->|Hkey];
            [first [by destruct a; [right; eexists|left]
                   |by destruct e; [right; eexists|left]
                   |by destruct n; [right; eexists|left]
                   |by destruct m; [right; eexists|left]]|]).
    by apply not_elem_of_nil in Hkey.
Qed.

(** The dictionaries of a run on [db_jane]. *)
Lemma summary_rows_shape_witness :
  outcome (get_task_status_summary sample_config (world_of db_jane))
  = inr [dict row_jane]
  ∧ dom (dict row_jane) = list_to_set (text_columns ++ count_columns).
Proof.
  assert (H : outcome (get_task_status_summary sample_config (world_of db_jane))
              = inr [dict row_jane]) by reflexivity.
  split; [exact H|].
  exact (proj1 (summary_rows_shape sample_config (world_of db_jane)
                  [dict row_jane] (dict row_jane) H (list_elem_of_here _ _))).
Defined.

(** The rows of a LEFT JOIN. *)
Lemma elem_of_left_join {A : Type} (x : option A) (matches : list A) :
  x ∈ left_join matches ↔
  match x with
  | Some a => a ∈ matches
  | None => matches = []
  end.
Proof.
  destruct matches as [|a0 rest]; cbn.
  - rewrite list_elem_of_singleton. destruct x as [a|]; [|done].
    split; [done|]. intros H. by apply not_elem_of_nil in H.
  - change (Some a0 :: (Some <$> rest)) with (Some <$> (a0 :: rest)).
    rewrite list_elem_of_fmap. destruct x as [a|].
    + split; [intros (a' & [= ->] & H); done|eauto].
    + split; [intros (a' & [=] & _)|done].
Qed.

(** The rows of the FROM clause: a task with a scored job and a lead that
    its references name, and with an operator that its reference names, or
    with none when its reference names no operator. *)
Lemma elem_of_from_clause j db :
  j ∈ from_clause db ↔
  j_t j ∈ karmafy_task db
  ∧ (j_sj j ∈ karmafy_scoredjob db ∧ sj_id (j_sj j) = t_scored_jobId (j_t j))
  ∧ (j_l j ∈ karmafy_lead db ∧ l_id (j_l j) = t_leadId (j_t j))
  ∧ match j_op j with
    | Some o => o ∈ karmafy_opsPerson db
                ∧ Some (op_user_id o) = t_ops_personId (j_t j)
    | None => ∀ o, o ∈ karmafy_opsPerson db →
                   Some (op_user_id o) ≠ t_ops_personId (j_t j)
    end.
Proof.
  unfold from_clause. rewrite list_elem_of_bind. split.
  - intros (t0 & Hj & Ht0).
    apply list_elem_of_bind in Hj as (s0 & Hj & [Hs0 Hs]%list_elem_of_filter).
    apply list_elem_of_bind in Hj as (l0 & Hj & [Hl0 Hl]%list_elem_of_filter).
    apply list_elem_of_bind in Hj as (o0 & Hj & Ho%elem_of_left_join).
    apply list_elem_of_singleton in Hj as ->. cbn.
    split; [done|]. split; [done|]. split; [done|].
    destruct o0 as [o|].
    + by apply list_elem_of_filter in Ho as [? ?].
    + intros o Ho' Hop.
      assert (Hin : o ∈ filter (λ o, Some (op_user_id o) = t_ops_personId t0)
                               (karmafy_opsPerson db))
        by (by apply list_elem_of_filter).
      rewrite Ho in Hin. by apply not_elem_of_nil in Hin.
  - destruct j as [t0 s0 l0 o0]. cbn. intros (Ht0 & [Hs Hs0] & [Hl Hl0] & Ho).
    exists t0. split; [|done].
    apply list_elem_of_bind. exists s0. split; [|by apply list_elem_of_filter].
    apply list_elem_of_bind. exists l0. split; [|by apply list_elem_of_filter].
    apply list_elem_of_bind. exists o0. split; [by apply list_elem_of_singleton|].
    apply elem_of_left_join. destruct o0 as [o|].
    + destruct Ho as [Ho Hop]. by apply list_elem_of_filter.
    + apply filter_none. intros o Ho' Hop. by apply (Ho o).
Qed.

(** The result is empty when no row passes the WHERE clause, and only then. *)
Lemma query_nil_iff db :
  query db = [] ↔ ∀ j, j ∈ from_clause db → ¬ where_clause j.
Proof.
  rewrite <- Permutation_nil_r, query_Permutation, Permutation_nil_r.
  unfold aggregate. split.
  - intros H%fmap_nil_inv j Hj Hw.
    assert (Hk : group_by j ∈ remove_dups
              (group_by <$> filter where_clause (from_clause db))).
    { apply elem_of_remove_dups, list_elem_of_fmap. exists j.
      split; [done|]. by apply list_elem_of_filter. }
    rewrite H in Hk. by apply not_elem_of_nil in Hk.
  - intros H. by rewrite (filter_none where_clause (from_clause db) H).
Qed.

(** X3: the result of the query is empty exactly when no joined task was
    created in the window; in a well-keyed store, exactly when no task was
    created in the window.  The scores and the statuses of the tasks play
    no part. *)
Theorem query_empty_iff_no_task_in_window db :
  (query db = [] ↔ ∀ j, j ∈ from_clause db → ¬ in_window (t_createdAt (j_t j)))
  ∧ (well_keyed db →
     (query db = [] ↔
      ∀ t0, t0 ∈ karmafy_task db → ¬ in_window (t_createdAt t0))).
Proof.
  split; [exact (query_nil_iff db)|].
  intros Hwk. rewrite query_nil_iff.
  rewrite <- (from_clause_one_row_per_task db Hwk). split.
  - intros H t0 (j & -> & Hj)%list_elem_of_fmap. by apply H.
  - intros H j Hj. apply (H (j_t j)). apply list_elem_of_fmap. eauto.
Qed.

(** [db_empty] is well keyed, and its result is empty. *)
Lemma query_empty_iff_no_task_in_window_witness :
  well_keyed db_empty ∧ query db_empty = [].
Proof.
  assert (Hwk : well_keyed db_empty) by (apply well_keyed_store_of; constructor).
  split; [exact Hwk|].
  apply (proj2 (query_empty_iff_no_task_in_window db_empty) Hwk).
  intros t0 Ht0. by apply not_elem_of_nil in Ht0.
Defined.

(** X4: in a well-keyed store no task created in the window is dropped: it
    is one row of the FROM clause, and the result has exactly one row for
    its (lead, operator) pair.  For a task without operator that row has
    neither operator name nor operator email. *)
Theorem task_in_window_has_its_row db t0 :
  well_keyed db → t0 ∈ karmafy_task db → in_window (t_createdAt t0) →
  ∃ j r,
    j ∈ from_clause db ∧ j_t j = t0
    ∧ r ∈ query db ∧ row_key r = group_by j
    ∧ (∀ r', r' ∈ query db → row_key r' = group_by j → r' = r)
    ∧ (t_ops_personId t0 = None → ca_name r = None ∧ ca_email r = None).
Proof.
  intros Hwk Ht0 Hw.
  rewrite <- (from_clause_one_row_per_task db Hwk) in Ht0.
  apply list_elem_of_fmap in Ht0 as (j & -> & Hj).
  exists j, (select (group_by j)
               (group_of (group_by j) (filter where_clause (from_clause db)))).
  split; [done|]. split; [done|]. split.
  { apply elem_of_query. eauto 6. }
  split; [apply row_key_select|]. split.
  - intros r' (k & -> & _)%elem_of_query. rewrite row_key_select. by intros ->.
  - intros Hnone. apply elem_of_from_clause in Hj as (_ & _ & _ & Hop).
    destruct (j_op j) as [o|] eqn:Ho.
    + destruct Hop as [_ Hop]. rewrite Hnone in Hop. discriminate Hop.
    + unfold group_by. rewrite Ho. done.
Qed.

(** A task without operator, created in the window. *)
Lemma task_in_window_has_its_row_witness :
  ∃ j r,
    j ∈ from_clause db_unassigned ∧ j_t j = task_unassigned
    ∧ r ∈ query db_unassigned ∧ row_key r = group_by j
    ∧ (∀ r', r' ∈ query db_unassigned → row_key r' = group_by j → r' = r)
    ∧ (t_ops_personId task_unassigned = None
       → ca_name r = None ∧ ca_email r = None).
Proof.
  apply (task_in_window_has_its_row db_unassigned task_unassigned).
  - apply well_keyed_store_of. by repeat constructor.
  - left.
  - vm_compute. split; congruence.
Defined.

(** ** Failures of the store *)

(** X5: when the store cannot be reached, [get_task_status_summary] prints
    one line and raises [HTTPException 500] with the detail [Database
    connection failed], whatever [Exception] the driver raised; no cursor
    is opened, nothing is executed or closed, and the endpoint stops with
    the same exception without any HTTP request. *)
Theorem connection_failure cfg w e :
  connect_answer w = Some e → is_Exception e = true →
  get_task_status_summary cfg w
  = mkEff [Psycopg2Connect (DATABASE_URL cfg);
           Print ("‚ùå Database connection error: " +:+ exn_str e)]
          (inl (HTTPException 500 "Database connection failed"))
  ∧ trace (send_task_status_report cfg w)
    = trace (get_task_status_summary cfg w)
  ∧ outcome (send_task_status_report cfg w)
    = inl (HTTPException 500 "Database connection failed").
Proof.
  intros Hc He.
  assert (H : get_task_status_summary cfg w
              = mkEff [Psycopg2Connect (DATABASE_URL cfg);
                       Print ("‚ùå Database connection error: " +:+ exn_str e)]
                      (inl (HTTPException 500 "Database connection failed"))).
  { unfold get_task_status_summary, get_db_connection. rewrite Hc.
    unfold try_except. cbn. rewrite He. reflexivity. }
  split; [exact H|].
  unfold send_task_status_report. rewrite H. split; reflexivity.
Qed.

(** A run against a store that refuses the connection. *)
Lemma connection_failure_witness :
  connect_answer world_unreachable = Some (OtherException "connection refused")
  ∧ outcome (send_task_status_report sample_config world_unreachable)
    = inl (HTTPException 500 "Database connection failed").
Proof.
  split; [reflexivity|].
  exact (proj2 (proj2 (connection_failure sample_config world_unreachable
                         (OtherException "connection refused")
                         eq_refl eq_refl))).
Defined.

(** An exception of the aggregation is the exception of the endpoint, and
    the endpoint does nothing more. *)
Lemma report_stops_with_summary cfg w e :
  outcome (get_task_status_summary cfg w) = inl e →
  send_task_status_report cfg w
  = mkEff (trace (get_task_status_summary cfg w)) (inl e).
Proof.
  intros H. unfold send_task_status_report, mbind, Eff_bind. by rewrite H.
Qed.

(** X6: when the query fails, a [psycopg2.Error] is turned into
    [HTTPException 500] with the detail [Database query failed], and any
    other exception leaves [get_task_status_summary] as it is; in both
    cases no row is fetched, and the endpoint stops with the same exception
    without any HTTP request. *)
Theorem query_failure cfg w e :
  connect_answer w = None → execute_answer w = Some e →
  outcome (get_task_status_summary cfg w)
  = inl (match e with
         | Psycopg2Error _ => HTTPException 500 "Database query failed"
         | _ => e
         end)
  ∧ count (λ ev, match ev with CursorFetchall => true | _ => false end)
      (trace (get_task_status_summary cfg w)) = 0%nat
  ∧ outcome (send_task_status_report cfg w)
    = inl (match e with
           | Psycopg2Error _ => HTTPException 500 "Database query failed"
           | _ => e
           end)
  ∧ count is_post (trace (send_task_status_report cfg w)) = 0%nat.
Proof.
  intros Hc He.
  assert (H : outcome (get_task_status_summary cfg w)
              = inl (match e with
                     | Psycopg2Error _ => HTTPException 500 "Database query failed"
                     | _ => e
                     end)).
  { unfold get_task_status_summary, get_db_connection. rewrite Hc, He.
    by destruct e. }
  split; [exact H|]. split.
  - unfold get_task_status_summary, get_db_connection. rewrite Hc, He.
    by destruct e.
  - rewrite (report_stops_with_summary cfg w _ H). cbn.
    split; [done|]. apply get_task_status_summary_no_post.
Qed.

(** A query that is interrupted: the exception is not converted. *)
Lemma query_failure_witness :
  outcome (get_task_status_summary sample_config world_query_crashes)
  = inl (OtherException "interrupted")
  ∧ count is_post
      (trace (send_task_status_report sample_config world_query_crashes))
    = 0%nat.
Proof.
  destruct (query_failure sample_config world_query_crashes
              (OtherException "interrupted") eq_refl eq_refl)
    as (H1 & _ & _ & H4).
  split; [exact H1|exact H4].
Defined.

(** ** Token and mail *)

(** The outcome of [get_access_token], by the answer of the identity
    service. *)
Lemma get_access_token_cases cfg w :
  match token_answer w with
  | Raises e => outcome (get_access_token cfg w) = inl e
  | Responds res =>
      if status_code res <? 400 then
        match access_token res with
        | Some tok =>
            if String.eqb tok "" then
              outcome (get_access_token cfg w)
              = inl (HTTPException 500 "No access token received from Azure AD")
            else outcome (get_access_token cfg w) = inr tok
        | None =>
            outcome (get_access_token cfg w)
            = inl (HTTPException 500 "No access token received from Azure AD")
        end
      else
        outcome (get_access_token cfg w)
        = inl (HTTPException 500 "Failed to get access token from Azure AD")
  end.
Proof.
  unfold get_access_token, requests_post, ok.
  destruct (token_answer w) as [e|res]; [reflexivity|].
  unfold mbind, Eff_bind. cbn.
  destruct (status_code res <? 400); cbn; [|reflexivity].
  destruct (access_token res) as [tok|]; cbn; [|reflexivity].
  destruct (String.eqb tok ""); reflexivity.
Qed.

(** It posts one request, to the token endpoint of the tenant, and that is
    the first thing it does. *)
Lemma get_access_token_trace cfg w :
  ∃ ev prints,
    trace (get_access_token cfg w) = ev :: prints
    ∧ is_token_post cfg ev
    ∧ Forall (λ ev', ∃ line, ev' = Print line) prints.
Proof.
  unfold get_access_token, requests_post, ok, is_token_post.
  destruct (token_answer w) as [e|res].
  { eexists _, []. split; [reflexivity|]. split; [eauto|constructor]. }
  unfold mbind, Eff_bind. cbn.
  destruct (status_code res <? 400); cbn.
  - destruct (access_token res) as [tok|]; cbn.
    + destruct (String.eqb tok ""); cbn.
      * eexists _, [_]. split; [reflexivity|]. split; [eauto|].
        repeat constructor. eauto.
      * eexists _, []. split; [reflexivity|]. split; [eauto|constructor].
    + eexists _, [_]. split; [reflexivity|]. split; [eauto|].
      repeat constructor. eauto.
  - eexists _, [_]. split; [reflexivity|]. split; [eauto|].
    repeat constructor. eauto.
Qed.



(** [send_mail_via_graph], step by step: the token, then the one request
    with the message, then one line when the service refuses it. *)
Lemma send_mail_via_graph_steps cfg w to subj html cc :
  match outcome (get_access_token cfg w) with
  | inl e =>
      send_mail_via_graph cfg w to subj html cc
      = mkEff (trace (get_access_token cfg w)) (inl e)
  | inr tok =>
      ∃ p prints,
        trace (send_mail_via_graph cfg w to subj html cc)
        = trace (get_access_token cfg w)
          ++ RequestsPost ("https://graph.microsoft.com/v1.0/users/"
                           +:+ SENDER_EMAIL cfg +:+ "/sendMail")
               [("Authorization", "Bearer " +:+ tok);
                ("Content-Type", "application/json")] (Json p)
             :: prints
        ∧ Forall (λ ev, ∃ line, ev = Print line) prints
        ∧ subject p = subj ∧ content p = html ∧ toRecipients p = [to]
        ∧ saveToSentItems p = true
        ∧ (cc = None ∨ cc = Some [] → ccRecipients p = None)
        ∧ (∀ emails, cc = Some emails → emails ≠ [] →
                     ccRecipients p = Some emails)
        ∧ outcome (send_mail_via_graph cfg w to subj html cc)
          = match mail_answer w with
            | Raises e => inl e
            | Responds res =>
                if status_code res <? 400 then inr ()
                else inl (HTTPException 500
                            "Failed to send email via Microsoft Graph")
            end
  end.
Proof.
  unfold send_mail_via_graph.
  destruct (get_access_token cfg w) as [tr [e|tok]]; cbn [outcome trace].
  { reflexivity. }
  unfold mbind at 1, Eff_bind at 1. cbn [outcome trace].
  unfold requests_post, ok.
  eexists.
  destruct (mail_answer w) as [e|res].
  - exists []. unfold mbind, Eff_bind. cbn.
    split; [reflexivity|]. split; [constructor|].
    repeat (split; [reflexivity|]).
    split; [by intros [->| ->]|]. split; [|reflexivity].
    by intros [|? ?] -> ?.
  - unfold mbind, Eff_bind. cbn. destruct (status_code res <? 400); cbn.
    + exists []. split; [reflexivity|]. split; [constructor|].
      repeat (split; [reflexivity|]).
      split; [by intros [->| ->]|]. split; [|reflexivity].
      by intros [|? ?] -> ?.
    + eexists [_]. split; [reflexivity|]. split; [repeat constructor; eauto|].
      repeat (split; [reflexivity|]).
      split; [by intros [->| ->]|]. split; [|reflexivity].
      by intros [|? ?] -> ?.
Qed.

(** X8: every request with a message that [send_mail_via_graph] posts goes
    to the [sendMail] address of the sender mailbox, is authorised by the
    token that [get_access_token] returned in this call, and carries the
    subject and the document it was given, the one recipient, the flag to
    save the message, and the CC addresses when there are some; without CC
    addresses the payload has no [ccRecipients]. *)
Theorem mail_request_content cfg w to subj html cc url headers p :
  RequestsPost url headers (Json p)
  ∈ trace (send_mail_via_graph cfg w to subj html cc) →
  ∃ tok,
    outcome (get_access_token cfg w) = inr tok
    ∧ url = "https://graph.microsoft.com/v1.0/users/" +:+ SENDER_EMAIL cfg
            +:+ "/sendMail"
    ∧ headers = [("Authorization", "Bearer " +:+ tok);
                 ("Content-Type", "application/json")]
    ∧ subject p = subj ∧ content p = html ∧ toRecipients p = [to]
    ∧ saveToSentItems p = true
    ∧ (cc = None ∨ cc = Some [] → ccRecipients p = None)
    ∧ (∀ emails, cc = Some emails → emails ≠ [] →
                 ccRecipients p = Some emails).
Proof.
  intros Hin.
  assert (Hsteps := send_mail_via_graph_steps cfg w to subj html cc).
  destruct (get_access_token_trace cfg w)
    as (ev & prints & Htr & (data & ->) & Hprints).
  assert (Hnot : RequestsPost url headers (Json p)
                 ∉ trace (get_access_token cfg w)).
  { rewrite Htr. intros [H|H]%elem_of_cons; [discriminate H|].
    rewrite Forall_forall in Hprints.
    destruct (Hprints _ H) as [line Hline]. discriminate Hline. }
  destruct (outcome (get_access_token cfg w)) as [e|tok].
  - rewrite Hsteps in Hin. done.
  - destruct Hsteps as (p' & prints' & Htr' & Hprints' & Hp).
    rewrite Htr' in Hin. apply elem_of_app in Hin as [Hin|Hin]; [done|].
    apply elem_of_cons in Hin as [Hin|Hin].
    + injection Hin as -> -> ->. exists tok.
      destruct Hp as (? & ? & ? & ? & ? & ? & _). done.
    + rewrite Forall_forall in Hprints'.
      destruct (Hprints' _ Hin) as [line Hline]. discriminate Hline.
Qed.



(** The message of a run on [db_jane] is posted with the token. *)
Lemma mail_request_content_witness :
  ∃ p, RequestsPost "https://graph.microsoft.com/v1.0/users/support@applywizz.com/sendMail"
         [("Authorization", "Bearer token");
          ("Content-Type", "application/json")] (Json p)
       ∈ trace (send_mail_via_graph sample_config (world_of db_jane)
                  TEST_EMAIL_RECIPIENT "subject" "<html>"
                  (Some ["ops@example.com"]))
       ∧ toRecipients p = [TEST_EMAIL_RECIPIENT]
       ∧ ccRecipients p = Some ["ops@example.com"].
Proof.
  eexists. split.
  - vm_compute. right. left.
  - split; [reflexivity|].
    match goal with
    | |- ccRecipients ?p = _ =>
        assert (Hin : RequestsPost "https://graph.microsoft.com/v1.0/users/support@applywizz.com/sendMail"
                        [("Authorization", "Bearer token");
                         ("Content-Type", "application/json")] (Json p)
                      ∈ trace (send_mail_via_graph sample_config
                                 (world_of db_jane) TEST_EMAIL_RECIPIENT
                                 "subject" "<html>" (Some ["ops@example.com"])))
          by (vm_compute; right; left)
    end.
    destruct (mail_request_content _ _ _ _ _ _ _ _ _ Hin)
      as (tok & _ & _ & _ & _ & _ & _ & _ & _ & Hcc).
    by apply Hcc.
Defined.

(** ** Reasoning on computations *)

Lemma trace_bind {A B : Type} (m : Eff A) (f : A -> Eff B) :
  trace (m ≫= f)
  = trace m ++ match outcome m with
               | inl _ => []
               | inr a => trace (f a)
               end.
Proof.
  unfold mbind, Eff_bind. destruct (outcome m); cbn; [by rewrite app_nil_r|done].
Qed.

Lemma outcome_bind {A B : Type} (m : Eff A) (f : A -> Eff B) :
  outcome (m ≫= f)
  = match outcome m with
    | inl e => inl e
    | inr a => outcome (f a)
    end.
Proof. unfold mbind, Eff_bind. by destruct (outcome m). Qed.

Section emits_raises.
Context (P : Event -> Prop) (Q : Exn -> Prop).

Lemma emits_only_bind {A B : Type} (m : Eff A) (f : A -> Eff B) :
  emits_only P m → (∀ a, emits_only P (f a)) → emits_only P (m ≫= f).
Proof.
  unfold emits_only. intros Hm Hf. rewrite trace_bind. apply Forall_app.
  split; [done|]. destruct (outcome m); [constructor|apply Hf].
Qed.

Lemma emits_only_ret {A : Type} (a : A) : emits_only P (mret a).
Proof. constructor. Qed.

Lemma emits_only_raise {A : Type} (e : Exn) : emits_only P (raise e : Eff A).
Proof. constructor. Qed.

Lemma emits_only_emit ev : P ev → emits_only P (emit ev).
Proof. by repeat constructor. Qed.

Lemma raises_only_bind {A B : Type} (m : Eff A) (f : A -> Eff B) :
  raises_only Q m → (∀ a, raises_only Q (f a)) → raises_only Q (m ≫= f).
Proof.
  unfold raises_only. intros Hm Hf e. rewrite outcome_bind.
  destruct (outcome m) as [e'|a] eqn:E; [|apply Hf].
  intros [= <-]. by apply Hm.
Qed.

Lemma raises_only_ret {A : Type} (a : A) : raises_only Q (mret a).
Proof. by intros e. Qed.

Lemma raises_only_raise {A : Type} (e : Exn) : Q e → raises_only Q (raise e : Eff A).
Proof. by intros H e' [= <-]. Qed.

Lemma raises_only_emit ev : raises_only Q (emit ev).
Proof. by intros e. Qed.

Lemma emits_only_for_each {A : Type} (xs : list A) (body : A -> Eff ()) :
  (∀ x, emits_only P (body x)) → emits_only P (for_each xs body).
Proof.
  intros H. induction xs as [|x xs IH]; [constructor|].
  cbn [for_each]. by apply emits_only_bind.
Qed.

Lemma raises_only_for_each {A : Type} (xs : list A) (body : A -> Eff ()) :
  (∀ x, raises_only Q (body x)) → raises_only Q (for_each xs body).
Proof.
  intros H. induction xs as [|x xs IH]; [by intros e|].
  cbn [for_each]. by apply raises_only_bind.
Qed.
End emits_raises.

(** ** Rendering, on any rows *)

(** A sum causes no event and raises nothing but [TypeError]. *)
Lemma py_add_trace a b : trace (py_add a b) = [].
Proof. by destruct a, b. Qed.

Lemma py_add_raises a b :
  raises_only (λ e, ∃ msg, e = TypeError msg) (py_add a b).
Proof. destruct a, b; intros e [= <-] || intros e [=]; eauto. Qed.

Lemma render_row_trace idx task : trace (render_row idx task) = [].
Proof.
  unfold render_row. rewrite !trace_bind, !py_add_trace.
  repeat (destruct (outcome (py_add _ _)); [done|];
          rewrite ?trace_bind, ?py_add_trace; cbn [app]).
  done.
Qed.

Lemma render_row_raises idx task :
  raises_only (λ e, ∃ msg, e = TypeError msg) (render_row idx task).
Proof.
  unfold render_row.
  repeat (apply raises_only_bind; [apply py_add_raises|intros ?]).
  apply raises_only_ret.
Qed.

Lemma render_rows_trace tasks_data : ∀ idx task_rows,
  trace (render_rows idx tasks_data task_rows) = [].
Proof.
  induction tasks_data as [|task rest IH]; intros idx task_rows; [done|].
  cbn [render_rows]. rewrite trace_bind, render_row_trace.
  destruct (outcome (render_row idx task)); [done|]. apply IH.
Qed.

Lemma render_rows_raises tasks_data : ∀ idx task_rows,
  raises_only (λ e, ∃ msg, e = TypeError msg)
              (render_rows idx tasks_data task_rows).
Proof.
  induction tasks_data as [|task rest IH]; intros idx task_rows.
  - apply raises_only_ret.
  - cbn [render_rows]. apply raises_only_bind; [apply render_row_raises|].
    intros row. apply IH.
Qed.

(** X10: rendering is pure: whatever rows it is given, and whether it
    returns a document or raises, [build_task_status_email_template] causes
    no event - no store call, no request, no print - and the only exception
    it can raise is [TypeError]. *)
Theorem rendering_is_pure app_name tasks_data support_url clock :
  trace (build_task_status_email_template app_name tasks_data support_url clock)
  = []
  ∧ ∀ e, outcome (build_task_status_email_template app_name tasks_data
                    support_url clock) = inl e →
         ∃ msg, e = TypeError msg.
Proof.
  unfold build_task_status_email_template. split.
  - rewrite trace_bind, render_rows_trace.
    by destruct (outcome (render_rows _ _ _)).
  - apply raises_only_bind; [apply render_rows_raises|].
    intros ?. apply raises_only_ret.
Qed.

(** An empty list of rows, and a row whose count is [None]. *)
Lemma rendering_is_pure_witness :
  outcome (build_task_status_email_template APP_NAME [task_none_count]
             default_support_url sample_clock)
  = inl (TypeError "unsupported operand type(s) for +")
  ∧ ∃ msg, TypeError "unsupported operand type(s) for +" = TypeError msg.
Proof.
  split; [reflexivity|].
  exact (proj2 (rendering_is_pure APP_NAME [task_none_count]
                  default_support_url sample_clock) _ eq_refl).
Defined.




(** Two values that add up are two integers or two strings. *)
Lemma py_add_inr_inv a b s :
  outcome (py_add a b) = inr s →
  a ≠ PNone ∧ b ≠ PNone ∧ s ≠ PNone.
Proof. destruct a, b; cbn; intros [= <-] || intros [=]; done. Qed.

(** A row that is rendered has no count that is [None]. *)
Lemma render_row_inr_counts idx task html key :
  outcome (render_row idx task) = inr html → key ∈ count_columns →
  get task key (PInt 0) ≠ PNone.
Proof.
  unfold render_row. intros Hr Hkey.
  apply bind_outcome_inr in Hr as (s1 & (? & ? & ?)%py_add_inr_inv & Hr).
  apply bind_outcome_inr in Hr as (s2 & (? & ? & ?)%py_add_inr_inv & Hr).
  apply bind_outcome_inr in Hr as (s3 & (? & ? & ?)%py_add_inr_inv & Hr).
  apply bind_outcome_inr in Hr as (s4 & (? & ? & ?)%py_add_inr_inv & Hr).
  apply bind_outcome_inr in Hr as (s5 & (? & ? & ?)%py_add_inr_inv & _).
  unfold count_columns in Hkey.
  repeat (apply elem_of_cons in Hkey as [->|Hkey]; [done|]).
  by apply not_elem_of_nil in Hkey.
Qed.

(** When the loop returns, every row was rendered. *)
Lemma render_rows_inr tasks_data : ∀ idx task_rows html task,
  outcome (render_rows idx tasks_data task_rows) = inr html →
  task ∈ tasks_data →
  ∃ idx' row, outcome (render_row idx' task) = inr row.
Proof.
  induction tasks_data as [|task0 rest IH]; intros idx task_rows html task H Hin.
  - by apply not_elem_of_nil in Hin.
  - cbn [render_rows] in H.
    apply bind_outcome_inr in H as (row & Hrow & H).
    apply elem_of_cons in Hin as [->|Hin]; [eauto|].
    by apply (IH _ _ _ _ H).
Qed.

(** X12: if one of the six counts of some row is [None], the renderer
    raises [TypeError] and returns no document. *)
Theorem render_none_count_raises app_name tasks_data support_url clock task key :
  task ∈ tasks_data → key ∈ count_columns → task !! key = Some PNone →
  ∃ msg, outcome (build_task_status_email_template app_name tasks_data
                    support_url clock) = inl (TypeError msg).
Proof.
  intros Hin Hkey Hnone. unfold build_task_status_email_template.
  rewrite outcome_bind.
  destruct (outcome (render_rows 1 tasks_data "")) as [e|html] eqn:E.
  - destruct (render_rows_raises tasks_data 1 "" e E) as [msg ->]. eauto.
  - exfalso.
    destruct (render_rows_inr tasks_data 1 "" html task E Hin)
      as (idx' & row & Hrow).
    apply (render_row_inr_counts idx' task row key Hrow Hkey).
    unfold get. by rewrite Hnone.
Qed.

(** A row whose pending count is [None]. *)
Lemma render_none_count_raises_witness :
  task_none_count !! "pending_75_plus" = Some PNone
  ∧ ∃ msg, outcome (build_task_status_email_template APP_NAME
                      [dict row_jane; task_none_count] default_support_url
                      sample_clock) = inl (TypeError msg).
Proof.
  split; [reflexivity|].
  apply (render_none_count_raises APP_NAME [dict row_jane; task_none_count]
           default_support_url sample_clock task_none_count "pending_75_plus").
  - right. left.
  - right. left.
  - reflexivity.
Defined.

(** X13: the guard [or 'N/A'] also replaces an empty text: a row whose lead
    external id, operator name or operator email is the empty string is
    rendered as the same row with the text [N/A] for that value is. *)
Theorem empty_cells_show_NA idx task key :
  key ∈ ["apw_id"; "ca_name"; "ca_email"] → task !! key = Some (PStr "") →
  render_row idx task = render_row idx (<[key := PStr "N/A"]> task).
Proof.
  intros Hkey Hempty.
  repeat (apply elem_of_cons in Hkey as [->|Hkey];
          [unfold render_row, get;
           rewrite lookup_insert_eq, !lookup_insert_ne by done;
           by rewrite Hempty|]).
  by apply not_elem_of_nil in Hkey.
Qed.

(** A row whose operator name is empty. *)
Lemma empty_cells_show_NA_witness :
  render_row 1 (<["ca_name" := PStr ""]> (dict row_jane))
  = render_row 1 (<["ca_name" := PStr "N/A"]>
                    (<["ca_name" := PStr ""]> (dict row_jane))).
Proof.
  apply (empty_cells_show_NA 1 (<["ca_name" := PStr ""]> (dict row_jane))
           "ca_name").
  - right. left.
  - reflexivity.
Defined.

(** ** The endpoint, step by step *)

(** Routine goals on the events of a computation. *)
Ltac emits :=
  repeat first
    [ apply emits_only_ret
    | apply emits_only_raise
    | apply emits_only_emit; reflexivity
    | apply emits_only_for_each; intros ?
    | apply emits_only_bind; [|intros ?]
    | match goal with
      | |- emits_only _ (match ?x with _ => _ end) => destruct x
      end
    | progress unfold print ].

(** Routine goals on the exceptions of a computation. *)
Ltac raises :=
  repeat first
    [ apply raises_only_ret
    | apply raises_only_emit
    | apply raises_only_raise; reflexivity
    | apply raises_only_for_each; intros ?
    | apply raises_only_bind; [|intros ?]
    | match goal with
      | |- raises_only _ (match ?x with _ => _ end) => destruct x
      end
    | progress unfold print ].

Lemma py_add_emits P a b : emits_only P (py_add a b).
Proof. unfold emits_only. rewrite py_add_trace. constructor. Qed.

Lemma py_add_raises_exception a b :
  raises_only (λ e, is_Exception e = true) (py_add a b).
Proof. intros e He. by destruct (py_add_raises a b e He) as [msg ->]. Qed.

Lemma build_template_emits P app_name tasks_data support_url clock :
  emits_only P (build_task_status_email_template app_name tasks_data
                  support_url clock).
Proof.
  unfold emits_only, build_task_status_email_template.
  rewrite trace_bind, render_rows_trace.
  destruct (outcome (render_rows _ _ _)); constructor.
Qed.

Lemma build_template_raises_exception app_name tasks_data support_url clock :
  raises_only (λ e, is_Exception e = true)
    (build_task_status_email_template app_name tasks_data support_url clock).
Proof.
  unfold build_task_status_email_template.
  apply raises_only_bind; [|intros ?; apply raises_only_ret].
  intros e He. by destruct (render_rows_raises _ _ _ e He) as [msg ->].
Qed.

(** The line of a row is printed without touching the store. *)
Lemma print_row_total_emits task :
  emits_only (λ ev, is_store_event ev = false) (print_row_total task).
Proof.
  unfold print_row_total, py_sum, subscript. cbn [foldl].
  repeat first [apply py_add_emits | emits].
Qed.

Lemma print_row_total_raises_exception task :
  raises_only (λ e, is_Exception e = true) (print_row_total task).
Proof.
  unfold print_row_total, py_sum, subscript. cbn [foldl].
  repeat first [apply py_add_raises_exception | raises].
Qed.

Lemma send_mail_via_graph_emits cfg w to subj html cc :
  emits_only (λ ev, is_store_event ev = false)
             (send_mail_via_graph cfg w to subj html cc).
Proof. unfold send_mail_via_graph, get_access_token, requests_post. emits. Qed.

Lemma get_task_status_summary_emits cfg w :
  emits_only (λ ev, is_post ev = false) (get_task_status_summary cfg w).
Proof.
  unfold emits_only, get_task_status_summary, get_db_connection.
  destruct (connect_answer w) as [[]|], (execute_answer w) as [[]|];
    cbn; repeat constructor.
Qed.

(** X14: the store comes before the network.  Every run of the endpoint is
    the run of the aggregation followed by events that do not touch the
    store, and the aggregation posts no request: whatever request the
    endpoint posts, it posts after the last event on the connection. *)
Theorem store_before_network cfg w :
  ∃ rest,
    trace (send_task_status_report cfg w)
    = trace (get_task_status_summary cfg w) ++ rest
    ∧ Forall (λ ev, is_store_event ev = false) rest
    ∧ Forall (λ ev, is_post ev = false) (trace (get_task_status_summary cfg w)).
Proof.
  unfold send_task_status_report. rewrite trace_bind.
  eexists. split; [reflexivity|]. split; [|apply get_task_status_summary_emits].
  destruct (outcome (get_task_status_summary cfg w)) as [e|rows]; [constructor|].
  destruct rows as [|row rows]; [constructor|].
  cbv beta iota zeta.
  match goal with |- Forall ?P (trace ?m) => change (emits_only P m) end.
  apply emits_only_bind; [apply build_template_emits|intros html].
  apply emits_only_bind; [apply send_mail_via_graph_emits|intros _].
  apply emits_only_bind; [emits|intros _].
  apply emits_only_bind; [emits|intros _].
  apply emits_only_bind.
  { apply emits_only_for_each. intros task. apply print_row_total_emits. }
  intros _. apply emits_only_bind; [|intros _; emits].
  destruct (5 <? _); emits.
Qed.

Lemma count_app kind tr1 tr2 :
  count kind (tr1 ++ tr2) = (count kind tr1 + count kind tr2)%nat.
Proof. unfold count. by rewrite List.filter_app, length_app. Qed.

Lemma count_prints kind prints :
  (∀ line, kind (Print line) = false) →
  Forall (λ ev, ∃ line, ev = Print line) prints → count kind prints = 0%nat.
Proof.
  intros Hk. induction 1 as [|ev prints [line ->] _ IH]; [done|].
  unfold count in *. cbn. by rewrite Hk.
Qed.

(** The rows of the query are rendered. *)
Lemma build_template_dict app_name rows support_url clock :
  ∃ html,
    build_task_status_email_template app_name (dict <$> rows) support_url clock
    = mret html.
Proof.
  unfold build_task_status_email_template. rewrite render_rows_dict.
  eexists. reflexivity.
Qed.

(** The line of a row of the query is printed: no key is missing, and the
    counts add up. *)
Lemma print_row_total_dict r : ∃ line, print_row_total (dict r) = print line.
Proof. eexists. reflexivity. Qed.

Lemma for_each_print_row_total_dict rows :
  outcome (for_each (dict <$> rows) print_row_total) = inr ()
  ∧ Forall (λ ev, ∃ line, ev = Print line)
           (trace (for_each (dict <$> rows) print_row_total)).
Proof.
  induction rows as [|r rows [IHo IHt]]; [by split; [|constructor]|].
  rewrite fmap_cons. cbn [for_each].
  destruct (print_row_total_dict r) as [line ->].
  rewrite outcome_bind, trace_bind. cbn. split; [done|].
  constructor; [eauto|done].
Qed.

(** The endpoint on a non-empty result, once the document is rendered, the
    message sent and the lines printed: what it returns, and what it did. *)
Lemma report_steps cfg w rows html :
  outcome (get_task_status_summary cfg w) = inr rows → rows ≠ [] →
  build_task_status_email_template APP_NAME rows default_support_url
    (λ i, utcnow w (S i)) = mret html →
  outcome (send_mail_via_graph cfg w TEST_EMAIL_RECIPIENT
             (APP_NAME +:+ " - Daily Task Status Report (Score ‚â• 75) - "
              +:+ strftime_Ymd (utcnow w 0%nat)) html
             (Some (CC_EMAIL_RECIPIENTS cfg))) = inr () →
  outcome (for_each (take 5 rows) print_row_total) = inr () →
  Forall (λ ev, ∃ line, ev = Print line)
         (trace (for_each (take 5 rows) print_row_total)) →
  outcome (send_task_status_report cfg w)
  = inr (list_to_map
           [("success", JBool true);
            ("message",
             JStr ("Daily task status report sent for "
                   +:+ str_of_int (Z.of_nat (length rows))
                   +:+ " lead-CA combination(s)"));
            ("task_combinations_count", JInt (Z.of_nat (length rows)));
            ("tasks_data", JRows rows);
            ("email_sent", JBool true);
            ("email_sent_to", JStr TEST_EMAIL_RECIPIENT)])
  ∧ ∃ prints,
      trace (send_task_status_report cfg w)
      = trace (get_task_status_summary cfg w)
        ++ trace (send_mail_via_graph cfg w TEST_EMAIL_RECIPIENT
                    (APP_NAME +:+ " - Daily Task Status Report (Score ‚â• 75) - "
                     +:+ strftime_Ymd (utcnow w 0%nat)) html
                    (Some (CC_EMAIL_RECIPIENTS cfg)))
        ++ prints
      ∧ Forall (λ ev, ∃ line, ev = Print line) prints.
Proof.
  intros Hsum Hrows Hbuild Hmail Hfo Hft.
  unfold send_task_status_report. rewrite outcome_bind, trace_bind, Hsum.
  destruct rows as [|row rest]; [done|]. cbv beta iota zeta.
  repeat first
    [ rewrite outcome_bind | rewrite trace_bind | rewrite Hbuild
    | rewrite Hmail | rewrite Hfo
    | progress cbn [outcome trace mret Eff_ret print emit]
    | progress cbv beta iota ].
  split.
  - by destruct (5 <? _).
  - eexists. rewrite app_nil_l. split; [reflexivity|].
    repeat (apply Forall_app; split); try done.
    + repeat constructor. eauto.
    + repeat constructor. eauto.
    + destruct (5 <? _); cbn; repeat constructor; eauto.
    + destruct (5 <? _); cbn; constructor.
Qed.

(** X15: when the store and both HTTP services answer well, the endpoint
    returns normally on every store content, without [KeyError] or
    [TypeError] on the rows of the query.  When the result of the query is
    not empty, the object returned has [email_sent] true and carries the
    rows and their number, exactly two requests were posted, and the
    message posted carries the document rendered from exactly those rows,
    for the fixed recipient. *)
Theorem report_sent_when_all_answer cfg w :
  answers_well w → query (store w) ≠ [] →
  ∃ d html,
    outcome (send_task_status_report cfg w) = inr d
    ∧ d !! "email_sent" = Some (JBool true)
    ∧ d !! "tasks_data" = Some (JRows (dict <$> query (store w)))
    ∧ d !! "task_combinations_count"
      = Some (JInt (Z.of_nat (length (query (store w)))))
    ∧ count is_post (trace (send_task_status_report cfg w)) = 2%nat
    ∧ build_task_status_email_template APP_NAME (dict <$> query (store w))
        default_support_url (λ i, utcnow w (S i)) = mret html
    ∧ ∃ url headers p,
        RequestsPost url headers (Json p)
        ∈ trace (send_task_status_report cfg w)
        ∧ content p = html ∧ toRecipients p = [TEST_EMAIL_RECIPIENT].
Proof.
  intros (Hc & He & (tres & tok & Htok & Htst & Htk & Hne)
          & (mres & Hmail & Hmst)) Hrows.
  assert (Hsum := get_task_status_summary_ok cfg w Hc He).
  destruct (build_template_dict APP_NAME (query (store w)) default_support_url
              (λ i, utcnow w (S i))) as [html Hbuild].
  assert (Htoken : outcome (get_access_token cfg w) = inr tok).
  { assert (Hcases := get_access_token_cases cfg w).
    rewrite Htok in Hcases. apply Z.ltb_lt in Htst.
    rewrite Htst, Htk in Hcases. by destruct (String.eqb_spec tok ""). }
  destruct (get_access_token_trace cfg w)
    as (tev & tprints & Httr & (data & ->) & Htprints).
  assert (Hsteps := send_mail_via_graph_steps cfg w TEST_EMAIL_RECIPIENT
            (APP_NAME +:+ " - Daily Task Status Report (Score ‚â• 75) - "
             +:+ strftime_Ymd (utcnow w 0%nat)) html
            (Some (CC_EMAIL_RECIPIENTS cfg))).
  rewrite Htoken in Hsteps.
  destruct Hsteps as (p & mprints & Hmtr & Hmprints & _ & Hcontent & Hto & _ & _
                      & _ & Hmout).
  rewrite Hmail in Hmout. apply Z.ltb_lt in Hmst. rewrite Hmst in Hmout.
  destruct (for_each_print_row_total_dict (take 5 (query (store w))))
    as [Hfo Hft].
  rewrite fmap_take in Hfo, Hft.
  destruct (report_steps cfg w (dict <$> query (store w)) html)
    as (Hout & prints & Htr & Hprints); try done.
  { by rewrite Hsum. }
  { by intros ?%fmap_nil_inv. }
  eexists _, html. split; [exact Hout|].
  split; [reflexivity|]. split; [reflexivity|].
  split; [by rewrite length_fmap|]. split; [|split; [exact Hbuild|]].
  - rewrite Htr, Hmtr, Httr, Hsum. cbn [trace].
    rewrite !count_app.
    assert (H0 : ∀ line, is_post (Print line) = false) by done.
    change (count is_post (?ev :: ?l)) with (count is_post ([ev] ++ l)).
    rewrite !count_app, (count_prints _ _ H0 Htprints),
      (count_prints _ _ H0 Hmprints), (count_prints _ _ H0 Hprints).
    reflexivity.
  - eexists _, _, p. split; [|done].
    rewrite Htr, Hmtr. apply elem_of_app. right.
    apply elem_of_app. left. apply elem_of_app. right. left.
Qed.

(** A run on [db_jane]. *)
Lemma report_sent_when_all_answer_witness :
  answers_well (world_of db_jane)
  ∧ count is_post
      (trace (send_task_status_report sample_config (world_of db_jane)))
    = 2%nat.
Proof.
  assert (Hw : answers_well (world_of db_jane)).
  { split; [done|]. split; [done|]. split.
    - eexists _, "token". split; [reflexivity|]. cbn. split; [lia|done].
    - eexists. split; [reflexivity|]. cbn. lia. }
  split; [exact Hw|].
  destruct (report_sent_when_all_answer sample_config (world_of db_jane) Hw)
    as (d & html & _ & _ & _ & _ & Hcount & _).
  { change (query db_jane ≠ []). by rewrite query_db_jane. }
  exact Hcount.
Defined.

(** What the endpoint returns, by the result of the aggregation. *)
Lemma report_returns cfg w d :
  outcome (send_task_status_report cfg w) = inr d →
  ∃ rows,
    outcome (get_task_status_summary cfg w) = inr rows
    ∧ d !! "email_sent" = Some (JBool (bool_decide (rows ≠ []))).
Proof.
  unfold send_task_status_report.
  intros (rows & Hrows & H)%bind_outcome_inr. exists rows. split; [done|].
  destruct rows as [|row rows].
  - cbn in H. by injection H as <-.
  - repeat apply bind_outcome_inr in H as (? & _ & H).
    cbn in H. by injection H as <-.
Qed.

(** X16: with a store that answers, the endpoint returns an object whose
    [email_sent] is false exactly when no joined task was created in the
    window, whatever the scores and the statuses of the tasks. *)
Theorem short_circuit_iff_no_task_in_window cfg w :
  connect_answer w = None → execute_answer w = None →
  (∃ d, outcome (send_task_status_report cfg w) = inr d
        ∧ d !! "email_sent" = Some (JBool false))
  ↔ ∀ j, j ∈ from_clause (store w) → ¬ in_window (t_createdAt (j_t j)).
Proof.
  intros Hc He. assert (Hsum := get_task_status_summary_ok cfg w Hc He).
  rewrite <- (query_nil_iff (store w)). split.
  - intros (d & (rows & Hrows & Hsent)%report_returns & Hfalse).
    rewrite Hsum in Hrows. cbn in Hrows. injection Hrows as <-.
    rewrite Hsent in Hfalse. injection Hfalse as Hfalse.
    apply bool_decide_eq_false in Hfalse.
    destruct (query (store w)); [done|]. by destruct Hfalse.
  - intros Hnil. unfold send_task_status_report.
    rewrite Hsum, Hnil. eexists. split; reflexivity.
Qed.

(** On [db_low_score] a task was created in the window, and the report is
    not short-circuited. *)
Lemma short_circuit_iff_no_task_in_window_witness :
  ¬ ∃ d, outcome (send_task_status_report sample_config (world_of db_low_score))
         = inr d
         ∧ d !! "email_sent" = Some (JBool false).
Proof.
  intros H.
  assert (H' := proj1 (short_circuit_iff_no_task_in_window sample_config
                         (world_of db_low_score) eq_refl eq_refl) H).
  apply (H' (joined_of "completed" window_start 10)); [left|].
  vm_compute. split; congruence.
Defined.

(** ** Exceptions of a run *)

Lemma get_task_status_summary_raises_exception cfg w :
  raises_exceptions w →
  raises_only (λ e, is_Exception e = true) (get_task_status_summary cfg w).
Proof.
  intros (Hc & He & _) e.
  unfold get_task_status_summary, get_db_connection.
  destruct (connect_answer w) as [ec|] eqn:Ec.
  - unfold try_except. cbn. rewrite (Hc ec eq_refl). cbn. by intros [= <-].
  - destruct (execute_answer w) as [ee|] eqn:Ee; [|by cbn].
    specialize (He ee eq_refl). destruct ee; cbn; intros [= <-]; done.
Qed.

Lemma requests_post_raises_exception url headers body answer :
  (∀ e, answer = Raises e → is_Exception e = true) →
  raises_only (λ e, is_Exception e = true)
              (requests_post url headers body answer).
Proof.
  intros H. unfold requests_post. destruct answer as [e|res].
  - apply raises_only_bind; [apply raises_only_emit|intros _].
    apply raises_only_raise. by apply H.
  - raises.
Qed.

Lemma send_mail_via_graph_raises_exception cfg w to subj html cc :
  raises_exceptions w →
  raises_only (λ e, is_Exception e = true)
              (send_mail_via_graph cfg w to subj html cc).
Proof.
  intros (_ & _ & Ht & Hm). unfold send_mail_via_graph, get_access_token.
  apply raises_only_bind.
  { apply raises_only_bind; [by apply requests_post_raises_exception|].
    intros res. raises. }
  intros tok. apply raises_only_bind;
    [by apply requests_post_raises_exception|].
  intros res. raises.
Qed.

Lemma send_task_status_report_raises_exception cfg w :
  raises_exceptions w →
  raises_only (λ e, is_Exception e = true) (send_task_status_report cfg w).
Proof.
  intros Hw. unfold send_task_status_report.
  apply raises_only_bind;
    [by apply get_task_status_summary_raises_exception|].
  intros [|row rows]; [apply raises_only_ret|]. cbv beta iota zeta.
  apply raises_only_bind; [apply build_template_raises_exception|intros html].
  apply raises_only_bind;
    [by apply send_mail_via_graph_raises_exception|intros _].
  apply raises_only_bind; [raises|intros _].
  apply raises_only_bind; [raises|intros _].
  apply raises_only_bind.
  { apply raises_only_for_each. intros task.
    apply print_row_total_raises_exception. }
  intros _. apply raises_only_bind; [|intros _; raises].
  destruct (5 <? _); raises.
Qed.

Lemma last_two {A : Type} (a : A) l p q : last (a :: l ++ [p; q]) = Some q.
Proof.
  rewrite app_comm_cons. change [p; q] with ([p] ++ [q]).
  by rewrite app_assoc, last_snoc.
Qed.

(** X17: run as a script with an accepted configuration, in a world that
    raises nothing but [Exception]s, the module either prints the result of
    the report as its last line and ends normally, or, when the report
    raised, prints the error and the traceback and exits with status 1; no
    other exception leaves the script.  In both cases the report is what
    runs after the first line. *)
Theorem main_exit env w cfg :
  module_level env = mret cfg → raises_exceptions w →
  (∃ tail, trace (main env w)
           = Print "üöÄ Starting daily task status report..."
             :: trace (send_task_status_report cfg w) ++ tail)
  ∧ ((∃ d, outcome (send_task_status_report cfg w) = inr d
           ∧ outcome (main env w) = inr ()
           ∧ last (trace (main env w)) = Some (PrintResult d))
     ∨ (∃ e, outcome (send_task_status_report cfg w) = inl e
             ∧ outcome (main env w) = inl (SystemExit 1)
             ∧ last (trace (main env w)) = Some PrintTraceback)).
Proof.
  intros Hcfg Hw. unfold main. rewrite Hcfg, ret_bind.
  assert (Hexc := send_task_status_report_raises_exception cfg w Hw).
  set (body := send_task_status_report cfg w ≫= _).
  rewrite trace_bind, outcome_bind. cbn [print emit trace outcome app].
  unfold try_except.
  destruct (outcome (send_task_status_report cfg w)) as [e|d] eqn:Hout.
  - assert (Hbo : outcome body = inl e)
      by (unfold body; by rewrite outcome_bind, Hout).
    assert (Hbt : trace body = trace (send_task_status_report cfg w))
      by (unfold body; rewrite trace_bind, Hout; apply app_nil_r).
    rewrite Hbo, (Hexc e Hout). cbn [trace outcome]. rewrite Hbt. split.
    + eexists. reflexivity.
    + right. exists e. split; [done|]. split; [reflexivity|].
      rewrite !trace_bind. cbn [print emit raise trace outcome app].
      apply last_two.
  - assert (Hbo : outcome body = inr ())
      by (unfold body; by rewrite outcome_bind, Hout).
    assert (Hbt : trace body
                  = trace (send_task_status_report cfg w)
                    ++ [Print "‚úÖ Execution completed successfully!"]
                    ++ [PrintResult d])
      by (unfold body; by rewrite trace_bind, Hout).
    rewrite Hbo. cbv beta iota. rewrite Hbo, Hbt. split.
    + eexists. reflexivity.
    + left. exists d. split; [done|]. split; [reflexivity|].
      apply last_two.
Qed.

Lemma raises_exceptions_world_query_fails : raises_exceptions world_query_fails.
Proof.
  repeat split; intros e; cbn; intros [= <-] || intros [=]; done.
Qed.

(** A script run whose query fails exits with status 1. *)
Lemma main_exit_witness :
  module_level env_complete
  = mret (mkConfig "tenant" "client" "secret" "support@applywizz.com"
                   "postgresql://store/karmafy" [])
  ∧ outcome (main env_complete world_query_fails) = inl (SystemExit 1).
Proof.
  assert (Hcfg : module_level env_complete
                 = mret (mkConfig "tenant" "client" "secret"
                           "support@applywizz.com"
                           "postgresql://store/karmafy" []))
    by (vm_compute; reflexivity).
  split; [exact Hcfg|].
  destruct (main_exit env_complete world_query_fails _ Hcfg
              raises_exceptions_world_query_fails)
    as [_ [(d & Hd & _)|(e & _ & Hexit & _)]].
  - vm_compute in Hd. discriminate Hd.
  - exact Hexit.
Defined.

(** ** The configuration *)

Lemma env_truthy_iff v : env_truthy v = true ↔ ∃ s, v = Some s ∧ s ≠ "".
Proof.
  destruct v as [s|]; cbn.
  - rewrite negb_true_iff, String.eqb_neq. split; [eauto|].
    by intros (s' & [= <-] & ?).
  - split; [done|]. by intros (s & [=] & _).
Qed.

(** X18: the module accepts the environment exactly when the four required
    variables are set and not empty: an empty value is refused like an
    absent one.  When it refuses it raises [ValueError]; in no case does it
    cause an event.  An accepted configuration carries the values of the
    environment, and the sender mailbox is the value of [SENDER_EMAIL] when
    it is set and the support address otherwise. *)
Theorem configuration_accepted_iff env :
  ((∃ cfg, module_level env = mret cfg) ↔
   ∀ key, key ∈ required_variables → ∃ s, env !! key = Some s ∧ s ≠ "")
  ∧ (∀ e, outcome (module_level env) = inl e → ∃ msg, e = ValueError msg)
  ∧ trace (module_level env) = []
  ∧ (∀ cfg, module_level env = mret cfg →
       env !! "AZURE_TENANT_ID" = Some (TENANT_ID cfg)
       ∧ env !! "AZURE_CLIENT_ID" = Some (CLIENT_ID cfg)
       ∧ env !! "AZURE_CLIENT_SECRET" = Some (CLIENT_SECRET cfg)
       ∧ env !! "DATABASE_URL" = Some (DATABASE_URL cfg)
       ∧ SENDER_EMAIL cfg
         = default "support@applywizz.com" (env !! "SENDER_EMAIL")).
Proof.
  unfold module_level, required_variables. cbn [forallb].
  destruct (env_truthy (env !! "AZURE_TENANT_ID")) eqn:Ht;
    [destruct (env_truthy (env !! "AZURE_CLIENT_ID")) eqn:Hc;
     [destruct (env_truthy (env !! "AZURE_CLIENT_SECRET")) eqn:Hs;
      [destruct (env_truthy (env !! "DATABASE_URL")) eqn:Hd|]|]|];
    cbn [andb negb].
  - apply env_truthy_iff in Ht as (t & Ht & ?), Hc as (c & Hc & ?),
      Hs as (s & Hs & ?), Hd as (d & Hd & ?).
    rewrite Ht, Hc, Hs, Hd. cbn [default].
    split; [|split; [done|split; [done|]]].
    + split; [|eauto]. intros _ key Hkey.
      repeat (apply elem_of_cons in Hkey as [->|Hkey]; [eauto|]).
      by apply not_elem_of_nil in Hkey.
    + by intros cfg [= <-].
  - split; [|split; [|split; [done|done]]].
    + split; [by intros [cfg [=]]|]. intros H.
      assert (Hd' : env_truthy (env !! "DATABASE_URL") = true).
      { apply env_truthy_iff, H. repeat first [left|right]. }
      congruence.
    + intros e [= <-]. eauto.
  - split; [|split; [|split; [done|done]]].
    + split; [by intros [cfg [=]]|]. intros H.
      assert (Hs' : env_truthy (env !! "AZURE_CLIENT_SECRET") = true).
      { apply env_truthy_iff, H. repeat first [left|right]. }
      congruence.
    + intros e [= <-]. eauto.
  - split; [|split; [|split; [done|done]]].
    + split; [by intros [cfg [=]]|]. intros H.
      assert (Hc' : env_truthy (env !! "AZURE_CLIENT_ID") = true).
      { apply env_truthy_iff, H. repeat first [left|right]. }
      congruence.
    + intros e [= <-]. eauto.
  - split; [|split; [|split; [done|done]]].
    + split; [by intros [cfg [=]]|]. intros H.
      assert (Ht' : env_truthy (env !! "AZURE_TENANT_ID") = true).
      { apply env_truthy_iff, H. repeat first [left|right]. }
      congruence.
    + intros e [= <-]. eauto.
Qed.

(** An empty tenant id is refused. *)
Lemma configuration_accepted_iff_witness :
  env_empty_tenant !! "AZURE_TENANT_ID" = Some ""
  ∧ ¬ ∃ cfg, module_level env_empty_tenant = mret cfg.
Proof.
  split; [reflexivity|]. intros H.
  destruct (proj1 (proj1 (configuration_accepted_iff env_empty_tenant)) H
              "AZURE_TENANT_ID") as (s & Hs & Hne); [left|].
  vm_compute in Hs. by injection Hs as <-.
Defined.

(** *** The CC addresses *)













(** ** The order of the rows in the tables *)

Lemma bind_Permutation_ext {A B : Type} (f g : A -> list B) (xs ys : list A) :
  (∀ x, f x ≡ₚ g x) → xs ≡ₚ ys → xs ≫= f ≡ₚ ys ≫= g.
Proof.
  intros Hfg Hxy. rewrite <- Hxy. clear ys Hxy.
  induction xs as [|x xs IH]; [done|].
  rewrite !bind_cons. by rewrite IH, Hfg.
Qed.

Lemma left_join_Permutation {A : Type} (xs ys : list A) :
  xs ≡ₚ ys → left_join xs ≡ₚ left_join ys.
Proof.
  intros H. destruct xs as [|x xs].
  - apply Permutation_nil_l in H as <-. done.
  - destruct ys as [|y ys]; [by apply Permutation_nil_r in H|].
    unfold left_join. by rewrite H.
Qed.

Lemma from_clause_Permutation db db' :
  permuted_store db db' → from_clause db ≡ₚ from_clause db'.
Proof.
  intros (Ht & Hs & Hl & Ho & _). unfold from_clause.
  apply bind_Permutation_ext; [intros t0|done].
  apply bind_Permutation_ext; [intros s0|by rewrite Hs].
  apply bind_Permutation_ext; [intros l0|by rewrite Hl].
  apply bind_Permutation_ext; [done|].
  apply left_join_Permutation. by rewrite Ho.
Qed.

Lemma select_Permutation k g g' : g ≡ₚ g' → select k g = select k g'.
Proof.
  intros H. destruct k as [[[a e] n] m]. unfold select, count_filter.
  by rewrite H.
Qed.

Lemma aggregate_Permutation rows rows' :
  rows ≡ₚ rows' → aggregate rows ≡ₚ aggregate rows'.
Proof.
  intros H. unfold aggregate.
  rewrite (list_fmap_ext _ (λ k, select k (group_of k rows'))
             (remove_dups (group_by <$> rows))).
  - apply fmap_Permutation, NoDup_Permutation; [apply NoDup_remove_dups..|].
    intros k. rewrite !elem_of_remove_dups. by rewrite H.
  - intros _ k _. apply select_Permutation. unfold group_of. by rewrite H.
Qed.

(** X20: the result does not depend on the order in which the tables hold
    their rows: two stores with the same rows in each table have the same
    result rows, up to the order of the rows. *)
Theorem query_permutation_invariant db db' :
  permuted_store db db' → query db ≡ₚ query db'.
Proof.
  intros H. rewrite !query_Permutation.
  apply aggregate_Permutation. by rewrite (from_clause_Permutation db db' H).
Qed.

(** [db_jane], with its tasks in the reverse order. *)
Lemma query_permutation_invariant_witness :
  permuted_store db_jane db_jane_reversed
  ∧ query db_jane ≡ₚ query db_jane_reversed.
Proof.
  assert (H : permuted_store db_jane db_jane_reversed).
  { split; [|done]. cbn. symmetry. apply (reverse_Permutation [_; _; _; _]). }
  split; [exact H|]. exact (query_permutation_invariant _ _ H).
Defined.

(** ** The lines of a run *)

Lemma get_access_token_quiet cfg w tok :
  outcome (get_access_token cfg w) = inr tok →
  count is_print (trace (get_access_token cfg w)) = 0%nat.
Proof.
  unfold get_access_token, requests_post, ok.
  destruct (token_answer w) as [e|res]; [done|].
  unfold mbind, Eff_bind. cbn.
  destruct (status_code res <? 400); cbn; [|done].
  destruct (access_token res) as [tok'|]; cbn; [|done].
  by destruct (String.eqb tok' "").
Qed.

Lemma send_mail_via_graph_quiet cfg w to subj html cc :
  outcome (send_mail_via_graph cfg w to subj html cc) = inr () →
  count is_print (trace (send_mail_via_graph cfg w to subj html cc)) = 0%nat.
Proof.
  unfold send_mail_via_graph, get_access_token, requests_post, ok, count.
  unfold mbind, Eff_bind.
  destruct (token_answer w) as [e|tres]; cbn; [done|].
  destruct (status_code tres <? 400); cbn; [|done].
  destruct (access_token tres) as [tok|]; cbn; [|done].
  destruct (String.eqb tok ""); cbn; [done|].
  destruct (mail_answer w) as [e|mres]; cbn; [done|].
  by destruct (status_code mres <? 400).
Qed.

Lemma for_each_print_row_total_lines rows :
  count is_print (trace (for_each (dict <$> rows) print_row_total))
  = length rows.
Proof.
  induction rows as [|r rows IH]; [done|].
  rewrite fmap_cons. cbn [for_each length].
  destruct (print_row_total_dict r) as [line ->].
  rewrite trace_bind. cbn [print emit trace outcome].
  change ([Print line] ++ ?l) with (Print line :: l).
  unfold count in *. cbn. by rewrite IH.
Qed.

(** The lines of the endpoint on a non-empty result. *)
Lemma report_lines cfg w rows html :
  outcome (get_task_status_summary cfg w) = inr rows → rows ≠ [] →
  build_task_status_email_template APP_NAME rows default_support_url
    (λ i, utcnow w (S i)) = mret html →
  outcome (send_mail_via_graph cfg w TEST_EMAIL_RECIPIENT
             (APP_NAME +:+ " - Daily Task Status Report (Score ‚â• 75) - "
              +:+ strftime_Ymd (utcnow w 0%nat)) html
             (Some (CC_EMAIL_RECIPIENTS cfg))) = inr () →
  outcome (for_each (take 5 rows) print_row_total) = inr () →
  count is_print (trace (send_task_status_report cfg w))
  = (count is_print (trace (get_task_status_summary cfg w))
     + count is_print
         (trace (send_mail_via_graph cfg w TEST_EMAIL_RECIPIENT
                   (APP_NAME +:+ " - Daily Task Status Report (Score ‚â• 75) - "
                    +:+ strftime_Ymd (utcnow w 0%nat)) html
                   (Some (CC_EMAIL_RECIPIENTS cfg))))
     + 2
     + count is_print (trace (for_each (take 5 rows) print_row_total))
     + (if (5 <? Z.of_nat (length rows))%Z then 1 else 0))%nat.
Proof.
  intros Hsum Hrows Hbuild Hmail Hfo.
  unfold send_task_status_report. rewrite trace_bind, Hsum.
  destruct rows as [|row rest]; [done|]. cbv beta iota zeta.
  repeat first
    [ rewrite outcome_bind | rewrite trace_bind | rewrite Hbuild
    | rewrite Hmail | rewrite Hfo
    | progress cbn [outcome trace mret Eff_ret print emit]
    | progress cbv beta iota ].
  rewrite !count_app.
  destruct (5 <? _); cbn; unfold count; cbn; lia.
Qed.

(** X21: a run that sends the report prints a bounded number of lines,
    however many rows the result has: the two lines of the summary, one
    line for each of the first five rows at most, and one more line when
    there are more than five rows. *)
Theorem report_prints_at_most_five_rows cfg w :
  answers_well w → query (store w) ≠ [] →
  count is_print (trace (send_task_status_report cfg w))
  = (2 + Nat.min 5 (length (query (store w)))
     + (if (5 <? Z.of_nat (length (query (store w))))%Z then 1 else 0))%nat.
Proof.
  intros (Hc & He & (tres & tok & Htok & Htst & Htk & Hne)
          & (mres & Hmail & Hmst)) Hrows.
  assert (Hsum := get_task_status_summary_ok cfg w Hc He).
  destruct (build_template_dict APP_NAME (query (store w)) default_support_url
              (λ i, utcnow w (S i))) as [html Hbuild].
  assert (Htoken : outcome (get_access_token cfg w) = inr tok).
  { assert (Hcases := get_access_token_cases cfg w).
    rewrite Htok in Hcases. apply Z.ltb_lt in Htst.
    rewrite Htst, Htk in Hcases. by destruct (String.eqb_spec tok ""). }
  assert (Hsteps := send_mail_via_graph_steps cfg w TEST_EMAIL_RECIPIENT
            (APP_NAME +:+ " - Daily Task Status Report (Score ‚â• 75) - "
             +:+ strftime_Ymd (utcnow w 0%nat)) html
            (Some (CC_EMAIL_RECIPIENTS cfg))).
  rewrite Htoken in Hsteps.
  destruct Hsteps as (p & mprints & _ & _ & _ & _ & _ & _ & _ & _ & Hmout).
  rewrite Hmail in Hmout. apply Z.ltb_lt in Hmst. rewrite Hmst in Hmout.
  destruct (for_each_print_row_total_dict (take 5 (query (store w))))
    as [Hfo _].
  rewrite fmap_take in Hfo.
  rewrite (report_lines cfg w (dict <$> query (store w)) html);
    [|by rewrite Hsum|by intros ?%fmap_nil_inv|done..].
  rewrite (send_mail_via_graph_quiet _ _ _ _ _ _ Hmout).
  rewrite <- fmap_take, for_each_print_row_total_lines, length_take.
  rewrite Hsum, length_fmap. cbn [trace]. unfold count at 1. cbn. lia.
Qed.

(** A run on [db_jane], which has one row. *)
Lemma report_prints_at_most_five_rows_witness :
  count is_print
    (trace (send_task_status_report sample_config (world_of db_jane)))
  = 3%nat.
Proof.
  assert (Hw : answers_well (world_of db_jane)).
  { split; [done|]. split; [done|]. split.
    - eexists _, "token". split; [reflexivity|]. cbn. split; [lia|done].
    - eexists. split; [reflexivity|]. cbn. lia. }
  rewrite (report_prints_at_most_five_rows sample_config (world_of db_jane) Hw).
  - change (query (store (world_of db_jane))) with (query db_jane).
    by rewrite query_db_jane.
  - change (query db_jane ≠ []). by rewrite query_db_jane.
Defined.

(** ** The cursor *)

(** X22: on every exit of [get_task_status_summary] on which the connection
    was acquired, the cursor that the [with] statement opened is closed
    exactly once, and it is closed before the connection is: nothing
    happens on the connection between the two but the line that reports a
    failed query. *)
Theorem cursor_closed_before_connection cfg w :
  connect_answer w = None →
  ∃ before lines,
    trace (get_task_status_summary cfg w)
    = before ++ [CursorClose] ++ lines ++ [ConnClose]
    ∧ Forall (λ ev, ev ≠ CursorClose ∧ ev ≠ ConnClose) before
    ∧ Forall (λ ev, ∃ line, ev = Print line) lines.
Proof.
  intros Hc. unfold get_task_status_summary, get_db_connection. rewrite Hc.
  destruct (execute_answer w) as [e|].
  - destruct e;
      try (exists [Psycopg2Connect (DATABASE_URL cfg); ConnCursor; CursorExecute],
             []; split; [reflexivity|]; split; [|constructor];
           repeat constructor; done).
    exists [Psycopg2Connect (DATABASE_URL cfg); ConnCursor; CursorExecute],
      [Print ("‚ùå Database query error: " +:+ msg)].
    split; [reflexivity|]. split; [repeat constructor; done|].
    repeat constructor. eauto.
  - exists [Psycopg2Connect (DATABASE_URL cfg); ConnCursor; CursorExecute;
            CursorFetchall], [].
    split; [reflexivity|]. split; [repeat constructor; done|constructor].
Qed.

(** A run whose query fails. *)
Lemma cursor_closed_before_connection_witness :
  ∃ before lines,
    trace (get_task_status_summary sample_config world_query_fails)
    = before ++ [CursorClose] ++ lines ++ [ConnClose]
    ∧ Forall (λ ev, ev ≠ CursorClose ∧ ev ≠ ConnClose) before
    ∧ Forall (λ ev, ∃ line, ev = Print line) lines.
Proof.
  exact (cursor_closed_before_connection sample_config world_query_fails
           eq_refl).
Defined.
